(** * Food donation backend: a shallow embedding of [backend/server.js]

    The server is a set of Express handlers over two Mongoose collections
    (users and donations).  Every handler is an [async] function: it runs
    synchronously between two [await]s and may be interleaved with other
    requests at each [await].  The embedding keeps that shape:

    - documents are records whose fields follow the two schemas;
    - a collection is the list of its documents in insertion order;
    - a handler is a program [Prog Response] whose nodes are the awaited
      operations, in the order of the source;
    - [exec] runs a handler to completion on a store (one request served
      with nothing in between), [run_schedule] interleaves several handlers
      at their [await] points.

    The properties of a request body are JSON scalars (null, a boolean,
    an integer or a string); arrays and objects, which Mongoose would read
    as query operators in [findOne], are not modelled.  The [:id] of the
    claim route is any string.  The store itself never fails: an awaited
    operation throws only what the libraries raise on the data (a schema
    validation, a unique index, a missing document, an id that does not
    cast, a password that is not a string). *)

From Stdlib Require Import String Ascii List Bool ZArith NArith Lia.
From Stdlib Require Import DecimalString.
From Stdlib Require Import Permutation Sorted.
Import ListNotations.
Open Scope string_scope.

Set Implicit Arguments.

(** ** Documents *)

Definition ObjectId := N.
Definition Date := Z.

(** userSchema *)
Record User := mkUser {
  user_id : ObjectId;
  user_name : string;
  user_email : string;
  user_password : string;
  user_phone : string;
  user_userType : string;
  user_address : string;
  user_createdAt : Date
}.

(** donationSchema *)
Record Donation := mkDonation {
  donation_id : ObjectId;
  donorId : ObjectId;
  donorName : string;
  donorPhone : string;
  foodName : string;
  quantity : string;
  category : string;
  description : option string;
  pickupAddress : string;
  expiryTime : string;
  status : string;
  receiverId : option ObjectId;
  receiverName : option string;
  receiverPhone : option string;
  createdAt : Date
}.

Definition JWT_SECRET : string := "your_jwt_secret_key_here_change_in_production".

(** *** Schema validation, as run by [save]

    [required: true] on a String path rejects the empty string; an [enum]
    rejects a value outside the list. *)

Definition nonempty (s : string) : bool := negb (s =? "").

Definition in_enum (s : string) (values : list string) : bool :=
  existsb (String.eqb s) values.

Definition userType_enum : list string := ["donor"; "receiver"].
Definition status_enum : list string := ["available"; "claimed"; "completed"].

Definition validateUser (u : User) : bool :=
  nonempty (user_name u) && nonempty (user_email u) &&
  nonempty (user_password u) && nonempty (user_phone u) &&
  nonempty (user_userType u) && in_enum (user_userType u) userType_enum &&
  nonempty (user_address u).

Definition validateDonation (d : Donation) : bool :=
  nonempty (donorName d) && nonempty (donorPhone d) &&
  nonempty (foodName d) && nonempty (quantity d) &&
  nonempty (category d) && nonempty (pickupAddress d) &&
  nonempty (expiryTime d) && in_enum (status d) status_enum.

(** ** The store *)

Record Store := mkStore {
  users : list User;
  donations : list Donation
}.

Definition empty_store : Store := mkStore [] [].

(** Errors thrown by an awaited operation; a handler's [catch] turns them
    into a 500 response that carries the error's message. *)
Inductive Exn :=
| ValidationError
| DuplicateKey
| DocumentNotFound
| CastError
| IllegalArguments.

(** JSON values sent back; documents and error messages are leaves. *)
#[warnings="-register-all"]
Inductive json :=
| JStr (s : string)
| JNum (n : nat)
| JDate (t : Date)
| JId (i : ObjectId)
| JErr (e : Exn)
| JDonation (d : Donation)
| JObj (fields : list (string * json))
| JArr (items : list json).

Record Response := mkResponse {
  res_status : Z;
  res_body : json
}.

Definition message (code : Z) (msg : string) : Response :=
  mkResponse code (JObj [("message", JStr msg)]).

Definition server_error (msg : string) (e : Exn) : Response :=
  mkResponse 500 (JObj [("message", JStr msg); ("error", JErr e)]).

(** *** Queries *)

Definition findUserById (id : ObjectId) (s : Store) : option User :=
  find (fun u => N.eqb (user_id u) id) (users s).

Definition findUserByEmail (email : string) (s : Store) : option User :=
  find (fun u => user_email u =? email) (users s).

Definition findDonationById (id : ObjectId) (s : Store) : option Donation :=
  find (fun d => N.eqb (donation_id d) id) (donations s).

(** [sort({ createdAt: -1 })]: newest first. *)
Fixpoint insert_desc (d : Donation) (l : list Donation) : list Donation :=
  match l with
  | [] => [d]
  | x :: l' =>
      if (createdAt x <=? createdAt d)%Z then d :: l
      else x :: insert_desc d l'
  end.

Fixpoint sort_desc (l : list Donation) : list Donation :=
  match l with
  | [] => []
  | d :: l' => insert_desc d (sort_desc l')
  end.

(** The filters the handlers pass to [Donation.find]. *)
Inductive DonationFilter :=
| AllDonations
| ByStatus (st : string)
| ByDonor (id : ObjectId)
| ByReceiver (id : ObjectId).

Definition matches (q : DonationFilter) (d : Donation) : bool :=
  match q with
  | AllDonations => true
  | ByStatus st => status d =? st
  | ByDonor id => N.eqb (donorId d) id
  | ByReceiver id =>
      match receiverId d with
      | Some r => N.eqb r id
      | None => false
      end
  end.

Inductive UserFilter :=
| AllUsers
| ByUserType (t : string).

Definition matches_user (q : UserFilter) (u : User) : bool :=
  match q with
  | AllUsers => true
  | ByUserType t => user_userType u =? t
  end.

(** *** Writes *)

(** [save] of a new user: validation, then an insert that the unique
    indexes on [_id] and [email] may refuse. *)
Definition insertUser (u : User) (s : Store) : Store * (Exn + unit) :=
  if negb (validateUser u) then (s, inl ValidationError)
  else if existsb (fun x => N.eqb (user_id x) (user_id u) ||
                            (user_email x =? user_email u)) (users s)
  then (s, inl DuplicateKey)
  else (mkStore (users s ++ [u]) (donations s), inr tt).

Definition insertDonation (d : Donation) (s : Store) : Store * (Exn + unit) :=
  if negb (validateDonation d) then (s, inl ValidationError)
  else if existsb (fun x => N.eqb (donation_id x) (donation_id d)) (donations s)
  then (s, inl DuplicateKey)
  else (mkStore (users s) (donations s ++ [d]), inr tt).

(** Assignments to the paths of a loaded document. *)
Definition with_status (d : Donation) (v : string) : Donation :=
  mkDonation (donation_id d) (donorId d) (donorName d) (donorPhone d)
             (foodName d) (quantity d) (category d) (description d)
             (pickupAddress d) (expiryTime d)
             v (receiverId d) (receiverName d) (receiverPhone d)
             (createdAt d).

Definition with_receiverId (d : Donation) (v : ObjectId) : Donation :=
  mkDonation (donation_id d) (donorId d) (donorName d) (donorPhone d)
             (foodName d) (quantity d) (category d) (description d)
             (pickupAddress d) (expiryTime d)
             (status d) (Some v) (receiverName d) (receiverPhone d)
             (createdAt d).

Definition with_receiverName (d : Donation) (v : string) : Donation :=
  mkDonation (donation_id d) (donorId d) (donorName d) (donorPhone d)
             (foodName d) (quantity d) (category d) (description d)
             (pickupAddress d) (expiryTime d)
             (status d) (receiverId d) (Some v) (receiverPhone d)
             (createdAt d).

Definition with_receiverPhone (d : Donation) (v : string) : Donation :=
  mkDonation (donation_id d) (donorId d) (donorName d) (donorPhone d)
             (foodName d) (quantity d) (category d) (description d)
             (pickupAddress d) (expiryTime d)
             (status d) (receiverId d) (receiverName d) (Some v)
             (createdAt d).

(** The only paths a handler ever assigns on a loaded document are
    [status], [receiverId], [receiverName] and [receiverPhone]; [save]
    then sends an update that sets those paths, taken from the document in
    memory [doc], on the stored document [x] with the same [_id]. *)
Definition set_modified (doc x : Donation) : Donation :=
  mkDonation (donation_id x) (donorId x) (donorName x) (donorPhone x)
             (foodName x) (quantity x) (category x) (description x)
             (pickupAddress x) (expiryTime x)
             (status doc) (receiverId doc) (receiverName doc)
             (receiverPhone doc)
             (createdAt x).

Fixpoint update_modified (doc : Donation) (l : list Donation)
  : option (list Donation) :=
  match l with
  | [] => None
  | x :: l' =>
      if N.eqb (donation_id x) (donation_id doc)
      then Some (set_modified doc x :: l')
      else match update_modified doc l' with
           | Some r => Some (x :: r)
           | None => None
           end
  end.

(** [save] of a loaded and modified document: validation of the document
    in memory, then the update. *)
Definition saveModified (doc : Donation) (s : Store) : Store * (Exn + unit) :=
  if negb (validateDonation doc) then (s, inl ValidationError)
  else match update_modified doc (donations s) with
       | Some l => (mkStore (users s) l, inr tt)
       | None => (s, inl DocumentNotFound)
       end.

(** ** Primitives of the two libraries the server calls

    [bcrypt.hash] draws a salt, [jwt.sign] and [jwt.verify] read the
    clock; both are passed explicitly.  [castObjectId] is the cast
    Mongoose applies to the string given to [findById]: the id it stands
    for, or nothing when the string is not the text of an id. *)
Class Primitives := {
  bcrypt_hash : string -> string -> string;
  bcrypt_compare : string -> string -> bool;
  jwt_sign : ObjectId -> string -> Date -> string;
  jwt_verify : string -> string -> Date -> option ObjectId;
  castObjectId : string -> option ObjectId
}.

(** ** Values of a parsed JSON body

    A property is [null], a boolean, a number or a string; numbers are
    the integers JavaScript prints in full. *)

Inductive Value :=
| VNull
| VBool (b : bool)
| VNum (n : Z)
| VStr (s : string).

(** [!v], for a value or [undefined]. *)
Definition falsy (v : option Value) : bool :=
  match v with
  | None => true
  | Some VNull => true
  | Some (VBool b) => negb b
  | Some (VNum n) => (n =? 0)%Z
  | Some (VStr s) => s =? ""
  end.

(** The cast of a String path: a string as it is, a number or a boolean
    through [toString]; [null] and [undefined] are not cast and leave the
    path empty. *)
Definition str (v : option Value) : string :=
  match v with
  | Some (VStr s) => s
  | Some (VNum n) => NilZero.string_of_int (Z.to_int n)
  | Some (VBool true) => "true"
  | Some (VBool false) => "false"
  | Some VNull => ""
  | None => ""
  end.

(** [typeof v === 'string'], the test of bcrypt on the password. *)
Definition is_string (v : option Value) : bool :=
  match v with
  | Some (VStr _) => true
  | _ => false
  end.

(** The same cast for a path that is not required. *)
Definition optional (v : option Value) : option string :=
  match v with
  | None => None
  | Some VNull => None
  | Some x => Some (str (Some x))
  end.

(** What a request draws from the runtime: the clock, the [_id] given to
    a document it constructs, the salt, and the connection state. *)
Record Env := mkEnv {
  now : Date;
  new_id : ObjectId;
  salt : string;
  readyState : Z
}.

(** ** Programs: one node per [await] *)

Inductive Op : Type -> Type :=
| User_findOne (email : string) : Op (option User)
| User_findById (id : ObjectId) : Op (option User)
| User_save (u : User) : Op unit
| User_countDocuments (q : UserFilter) : Op nat
| Donation_findById (id : string) : Op (option Donation)
| Donation_find (q : DonationFilter) (limit : option nat) : Op (list Donation)
| Donation_save (d : Donation) : Op unit
| Donation_save_modified (doc : Donation) : Op unit
| Donation_countDocuments (q : DonationFilter) : Op nat
| Bcrypt_hash (password : option Value) (salt : string) : Op string
| Bcrypt_compare (password : option Value) (digest : string) : Op bool.

Inductive Prog (A : Type) : Type :=
| Ret (a : A)
| Await (X : Type) (op : Op X) (k : X -> Prog A).

Arguments Ret {A} a.
Arguments Await {A X} op k.

Notation "x <- 'await' op ;; k" := (Await op (fun x => k))
  (at level 61, op at next level, right associativity).

(** A handler: the body of its [try] and the response of its [catch]. *)
Record Handler := mkHandler {
  try_body : Prog Response;
  catch : Exn -> Response
}.

Section Semantics.

Context {P : Primitives}.

Definition limit_to {A} (limit : option nat) (l : list A) : list A :=
  match limit with
  | Some n => firstn n l
  | None => l
  end.

(** One awaited operation on the store. *)
Definition exec_op {X} (op : Op X) (s : Store) : Store * (Exn + X) :=
  match op in Op X return Store * (Exn + X) with
  | User_findOne email => (s, inr (findUserByEmail email s))
  | User_findById id => (s, inr (findUserById id s))
  | User_save u => insertUser u s
  | User_countDocuments q => (s, inr (length (filter (matches_user q) (users s))))
  | Donation_findById id =>
      match castObjectId id with
      | Some oid => (s, inr (findDonationById oid s))
      | None => (s, inl CastError)
      end
  | Donation_find q limit =>
      (s, inr (limit_to limit (sort_desc (filter (matches q) (donations s)))))
  | Donation_save d => insertDonation d s
  | Donation_save_modified doc => saveModified doc s
  | Donation_countDocuments q =>
      (s, inr (length (filter (matches q) (donations s))))
  | Bcrypt_hash password salt =>
      match password with
      | Some (VStr p) => (s, inr (bcrypt_hash p salt))
      | _ => (s, inl IllegalArguments)
      end
  | Bcrypt_compare password digest =>
      match password with
      | Some (VStr p) => (s, inr (bcrypt_compare p digest))
      | _ => (s, inl IllegalArguments)
      end
  end.

(** A body run to completion with nothing interleaved. *)
Fixpoint run {A} (p : Prog A) (s : Store) : Store * (Exn + A) :=
  match p with
  | Ret a => (s, inr a)
  | Await op k =>
      match exec_op op s with
      | (s', inr x) => run (k x) s'
      | (s', inl e) => (s', inl e)
      end
  end.

Definition exec (h : Handler) (s : Store) : Store * Response :=
  match run (try_body h) s with
  | (s', inr r) => (s', r)
  | (s', inl e) => (s', catch h e)
  end.

End Semantics.

(** ** Requests *)

(** A parsed JSON body: an object with scalar properties. *)
Definition Body := list (string * Value).

(** [req.body.key]: the property, or [undefined]. *)
Definition prop (key : string) (body : Body) : option Value :=
  match find (fun kv => fst kv =? key) body with
  | Some kv => Some (snd kv)
  | None => None
  end.

(** [s.split(sep)] for a one-character separator. *)
Fixpoint split (sep : ascii) (s : string) : list string :=
  match s with
  | EmptyString => [""]
  | String c s' =>
      if Ascii.eqb c sep then "" :: split sep s'
      else match split sep s' with
           | w :: ws => String c w :: ws
           | [] => [String c ""]
           end
  end.

Section Handlers.

Context {P : Primitives}.

(** *** Middleware to verify token *)
Definition verifyToken (authorization : option string) (env : Env)
  : Response + ObjectId :=
  let token :=
    match authorization with
    | Some h => option_map VStr (nth_error (split " " h) 1)
    | None => None
    end in
  if falsy token then inl (message 401 "No token provided")
  else match jwt_verify (str token) JWT_SECRET (now env) with
       | Some userId => inr userId
       | None => inl (message 401 "Invalid token")
       end.

(** *** GET /api/health *)
Definition health (env : Env) : Handler :=
  mkHandler
    (if (readyState env =? 1)%Z then
       Ret (mkResponse 200 (JObj [("status", JStr "healthy");
                                  ("database", JStr "connected");
                                  ("timestamp", JDate (now env))]))
     else
       Ret (mkResponse 503 (JObj [("status", JStr "unhealthy");
                                  ("database", JStr "disconnected")])))
    (fun e => mkResponse 503 (JObj [("status", JStr "unhealthy");
                                    ("error", JErr e)])).

(** *** GET /api/stats *)
Definition recentActivity (d : Donation) : json :=
  JObj [("action", JStr (donorName d ++ " donated " ++ foodName d ++
                         " - Status: " ++ status d));
        ("timestamp", JDate (createdAt d))].

Definition stats : Handler :=
  mkHandler
    (totalDonations <- await Donation_countDocuments AllDonations ;;
     activeDonations <- await Donation_countDocuments (ByStatus "available") ;;
     claimedDonations <- await Donation_countDocuments (ByStatus "claimed") ;;
     totalUsers <- await User_countDocuments AllUsers ;;
     donors <- await User_countDocuments (ByUserType "donor") ;;
     receivers <- await User_countDocuments (ByUserType "receiver") ;;
     recentDonations <- await Donation_find AllDonations (Some 5) ;;
     Ret (mkResponse 200
            (JObj [("totalDonations", JNum totalDonations);
                   ("activeDonations", JNum activeDonations);
                   ("claimedDonations", JNum claimedDonations);
                   ("totalUsers", JNum totalUsers);
                   ("donors", JNum donors);
                   ("receivers", JNum receivers);
                   ("recentActivity", JArr (map recentActivity recentDonations))])))
    (server_error "Error fetching stats").

(** *** POST /api/register *)
Definition register (env : Env) (body : Body) : Handler :=
  let name := prop "name" body in
  let email := prop "email" body in
  let password := prop "password" body in
  let phone := prop "phone" body in
  let userType := prop "userType" body in
  let address := prop "address" body in
  mkHandler
    (if falsy name || falsy email || falsy password || falsy phone ||
        falsy userType || falsy address
     then Ret (message 400 "All fields are required")
     else
       existingUser <- await User_findOne (str email) ;;
       match existingUser with
       | Some _ => Ret (message 400 "User already exists with this email")
       | None =>
           hashedPassword <- await Bcrypt_hash password (salt env) ;;
           let user := mkUser (new_id env) (str name) (str email)
                              hashedPassword (str phone) (str userType)
                              (str address) (now env) in
           _ <- await User_save user ;;
           Ret (mkResponse 201
                  (JObj [("message", JStr "User registered successfully");
                         ("user", JObj [("id", JId (user_id user));
                                        ("name", JStr (user_name user));
                                        ("email", JStr (user_email user));
                                        ("userType", JStr (user_userType user))])]))
       end)
    (server_error "Server error during registration").

(** *** POST /api/login *)
Definition login (env : Env) (body : Body) : Handler :=
  let email := prop "email" body in
  let password := prop "password" body in
  mkHandler
    (if falsy email || falsy password
     then Ret (message 400 "Email and password are required")
     else
       user <- await User_findOne (str email) ;;
       match user with
       | None => Ret (message 400 "Invalid email or password")
       | Some user =>
           isMatch <- await Bcrypt_compare password (user_password user) ;;
           if negb isMatch then Ret (message 400 "Invalid email or password")
           else
             let token := jwt_sign (user_id user) JWT_SECRET (now env) in
             Ret (mkResponse 200
                    (JObj [("token", JStr token);
                           ("user", JObj [("id", JId (user_id user));
                                          ("name", JStr (user_name user));
                                          ("email", JStr (user_email user));
                                          ("userType", JStr (user_userType user));
                                          ("phone", JStr (user_phone user));
                                          ("address", JStr (user_address user))])]))
       end)
    (server_error "Server error during login").

(** *** POST /api/donations (after [verifyToken]) *)
Definition createDonation (env : Env) (userId : ObjectId) (body : Body)
  : Handler :=
  let foodName := prop "foodName" body in
  let quantity := prop "quantity" body in
  let category := prop "category" body in
  let description := prop "description" body in
  let pickupAddress := prop "pickupAddress" body in
  let expiryTime := prop "expiryTime" body in
  mkHandler
    (if falsy foodName || falsy quantity || falsy category ||
        falsy pickupAddress || falsy expiryTime
     then Ret (message 400 "All required fields must be filled")
     else
       user <- await User_findById userId ;;
       match user with
       | None => Ret (message 404 "User not found")
       | Some user =>
           if negb (user_userType user =? "donor")
           then Ret (message 403 "Only donors can create donations")
           else
             let donation :=
               mkDonation (new_id env) userId (user_name user) (user_phone user)
                          (str foodName) (str quantity) (str category)
                          (optional description) (str pickupAddress)
                          (str expiryTime)
                          "available" None None None (now env) in
             _ <- await Donation_save donation ;;
             Ret (mkResponse 201
                    (JObj [("message", JStr "Donation created successfully");
                           ("donation", JDonation donation)]))
       end)
    (server_error "Server error creating donation").

(** *** GET /api/donations *)
Definition listAvailable : Handler :=
  mkHandler
    (donations <- await Donation_find (ByStatus "available") None ;;
     Ret (mkResponse 200 (JArr (map JDonation donations))))
    (server_error "Server error fetching donations").

(** *** GET /api/donations/my-donations (after [verifyToken]) *)
Definition myDonations (userId : ObjectId) : Handler :=
  mkHandler
    (user <- await User_findById userId ;;
     match user with
     | None => Ret (message 404 "User not found")
     | Some user =>
         if negb (user_userType user =? "donor")
         then Ret (message 403 "Only donors can view their donations")
         else
           donations <- await Donation_find (ByDonor userId) None ;;
           Ret (mkResponse 200 (JArr (map JDonation donations)))
     end)
    (server_error "Server error fetching your donations").

(** *** PUT /api/donations/:id/claim (after [verifyToken]) *)
Definition claimDonation (userId : ObjectId) (id : string) : Handler :=
  mkHandler
    (user <- await User_findById userId ;;
     match user with
     | None => Ret (message 404 "User not found")
     | Some user =>
         if negb (user_userType user =? "receiver")
         then Ret (message 403 "Only receivers can claim donations")
         else
           donation <- await Donation_findById id ;;
           match donation with
           | None => Ret (message 404 "Donation not found")
           | Some donation =>
               if negb (status donation =? "available")
               then Ret (message 400 "This donation is no longer available")
               else
                 let donation := with_status donation "claimed" in
                 let donation := with_receiverId donation userId in
                 let donation := with_receiverName donation (user_name user) in
                 let donation := with_receiverPhone donation (user_phone user) in
                 _ <- await Donation_save_modified donation ;;
                 Ret (mkResponse 200
                        (JObj [("message", JStr "Donation claimed successfully");
                               ("donation", JDonation donation)]))
           end
     end)
    (server_error "Server error claiming donation").

(** *** GET /api/donations/claimed (after [verifyToken]) *)
Definition claimedDonations (userId : ObjectId) : Handler :=
  mkHandler
    (user <- await User_findById userId ;;
     match user with
     | None => Ret (message 404 "User not found")
     | Some user =>
         if negb (user_userType user =? "receiver")
         then Ret (message 403 "Only receivers can view claimed items")
         else
           donations <- await Donation_find (ByReceiver userId) None ;;
           Ret (mkResponse 200 (JArr (map JDonation donations)))
     end)
    (server_error "Server error fetching claimed donations").

(** *** The application: routes in the order they are registered *)

Inductive Request :=
| GET_health
| GET_stats
| POST_register (body : Body)
| POST_login (body : Body)
| POST_donations (authorization : option string) (body : Body)
| GET_donations
| GET_my_donations (authorization : option string)
| PUT_claim (authorization : option string) (id : string)
| GET_claimed (authorization : option string)
| Other_route.

(** A route guarded by [verifyToken]: the handler runs when the
    middleware calls [next], with [req.userId] set. *)
Definition guarded (authorization : option string) (env : Env)
  (next : ObjectId -> Handler) : Handler :=
  match verifyToken authorization env with
  | inl r => mkHandler (Ret r) (fun _ => r)
  | inr userId => next userId
  end.

Definition app (env : Env) (req : Request) : Handler :=
  match req with
  | GET_health => health env
  | GET_stats => stats
  | POST_register body => register env body
  | POST_login body => login env body
  | POST_donations authorization body =>
      guarded authorization env (fun userId => createDonation env userId body)
  | GET_donations => listAvailable
  | GET_my_donations authorization => guarded authorization env myDonations
  | PUT_claim authorization id =>
      guarded authorization env (fun userId => claimDonation userId id)
  | GET_claimed authorization => guarded authorization env claimedDonations
  | Other_route =>
      mkHandler (Ret (message 404 "Route not found"))
                (fun _ => message 404 "Route not found")
  end.

(** One request served to completion on a store. *)
Definition serve (s : Store) (er : Env * Request) : Store * Response :=
  exec (app (fst er) (snd er)) s.

(** The store after a sequence of requests served one after the other. *)
Definition serve_all (s : Store) (reqs : list (Env * Request)) : Store :=
  fold_left (fun s er => fst (serve s er)) reqs s.

End Handlers.

(** ** Interleaved requests

    A request in flight is the rest of its handler.  A step of the event
    loop resumes one request: it performs the operation the request awaits
    and stops at the next [await]. *)

Inductive Task :=
| Running (p : Prog Response) (c : Exn -> Response)
| Finished (r : Response).

Definition start (h : Handler) : Task := Running (try_body h) (catch h).

Section Interleaving.

Context {P : Primitives}.

Definition step_task (t : Task) (s : Store) : Store * Task :=
  match t with
  | Finished r => (s, Finished r)
  | Running (Ret r) c => (s, Finished r)
  | Running (Await op k) c =>
      match exec_op op s with
      | (s', inr x) => (s', Running (k x) c)
      | (s', inl e) => (s', Finished (c e))
      end
  end.

Fixpoint set_nth {A} (n : nat) (a : A) (l : list A) : list A :=
  match l, n with
  | [], _ => []
  | _ :: l', O => a :: l'
  | x :: l', S n' => x :: set_nth n' a l'
  end.

(** Resume the request at position [i] of the pool. *)
Definition step_pool (i : nat) (st : Store * list Task) : Store * list Task :=
  match nth_error (snd st) i with
  | Some t => let '(s', t') := step_task t (fst st) in (s', set_nth i t' (snd st))
  | None => st
  end.

(** A schedule names, step after step, the request that is resumed. *)
Definition run_schedule (schedule : list nat) (st : Store * list Task)
  : Store * list Task :=
  fold_left (fun st i => step_pool i st) schedule st.

(** The number of steps after which a request started on [s] and resumed
    alone has finished. *)
Fixpoint steps_of {A} (p : Prog A) (s : Store) : nat :=
  match p with
  | Ret _ => 1
  | Await op k =>
      match exec_op op s with
      | (s', inr x) => S (steps_of (k x) s')
      | (_, inl _) => 1
      end
  end.

(** [n] steps of one request. *)
Fixpoint iterate (n : nat) (st : Store * Task) : Store * Task :=
  match n with
  | O => st
  | S n' => iterate n' (step_task (snd st) (fst st))
  end.

End Interleaving.

(** ** A concrete instance, used to evaluate the handlers

    The digest is the password followed by the salt; a token is the one
    character whose code is the user id, and so is the text of an id. *)
Definition demo_compare (password digest : string) : bool :=
  prefix (password ++ "$") digest.

Definition demo_verify (token secret : string) (t : Date) : option ObjectId :=
  match token with
  | String c EmptyString => Some (N_of_ascii c)
  | _ => None
  end.

Definition demo_cast (id : string) : option ObjectId :=
  match id with
  | String c EmptyString => Some (N_of_ascii c)
  | _ => None
  end.

Definition demo_primitives : Primitives :=
  {| bcrypt_hash := fun password salt => password ++ "$" ++ salt;
     bcrypt_compare := demo_compare;
     jwt_sign := fun id _ _ => String (ascii_of_N id) EmptyString;
     jwt_verify := demo_verify;
     castObjectId := demo_cast |}.

(** The text of an id, as the demo instance casts it. *)
Definition id_text (id : ObjectId) : string :=
  String (ascii_of_N id) EmptyString.

Arguments id_text id%_N.

(** A body whose properties are all strings. *)
Definition strings (l : list (string * string)) : Body :=
  map (fun kv => (fst kv, VStr (snd kv))) l.

Definition demo_env (t : Date) (id : ObjectId) : Env := mkEnv t id "salt" 1%Z.

Arguments demo_env t%_Z id%_N.

Definition donor_body : Body :=
  strings [("name", "D"); ("email", "d@x.com"); ("password", "pw-d");
   ("phone", "111"); ("userType", "donor"); ("address", "1 Main St")].

Definition receiver_body : Body :=
  strings [("name", "R"); ("email", "r@x.com"); ("password", "pw-r");
   ("phone", "222"); ("userType", "receiver"); ("address", "2 Main St")].

Definition receiver2_body : Body :=
  strings [("name", "R2"); ("email", "r2@x.com"); ("password", "pw-r2");
   ("phone", "333"); ("userType", "receiver"); ("address", "3 Main St")].

Definition bread_body : Body :=
  strings [("foodName", "Bread"); ("quantity", "5 loaves"); ("category", "Bakery");
   ("pickupAddress", "1 Main St"); ("expiryTime", "2025-01-01T18:00")].

(** The token the demo instance issues for user [id]. *)
Definition bearer (id : ObjectId) : option string :=
  Some ("Bearer " ++ String (ascii_of_N id) EmptyString).

Arguments bearer id%_N.

(** Donor 1, receivers 2 and 3, and one donation of bread with id 10. *)
Definition demo_store : Store :=
  Eval vm_compute in
  @serve_all demo_primitives empty_store
    [(demo_env 1000 1, POST_register donor_body);
     (demo_env 1001 2, POST_register receiver_body);
     (demo_env 1002 3, POST_register receiver2_body);
     (demo_env 1003 10, POST_donations (bearer 1) bread_body)].

(** The text of the id of the bread. *)
Definition bread : string := id_text 10.

Arguments claimDonation userId%_N id.

(** ** Reading a response *)

(** The property names of a JSON object, in order. *)
Definition keys (j : json) : list string :=
  match j with
  | JObj fields => map fst fields
  | _ => []
  end.

(** The value of a property of a JSON object. *)
Definition get (key : string) (j : json) : option json :=
  match j with
  | JObj fields =>
      match find (fun kv => fst kv =? key) fields with
      | Some kv => Some (snd kv)
      | None => None
      end
  | _ => None
  end.

(** A string without the separator of [split(' ')]. *)
Fixpoint no_space (s : string) : bool :=
  match s with
  | EmptyString => true
  | String c s' => negb (Ascii.eqb c " ") && no_space s'
  end.

(** ** Vocabulary of the properties *)

Open Scope list_scope.
Unset Implicit Arguments.

Definition store_valid (s : Store) : bool :=
  forallb validateUser (users s) && forallb validateDonation (donations s).

(** The document the claim handler holds when it calls [save]. *)
Definition claimed (d : Donation) (userId : ObjectId) (user : User) : Donation :=
  with_receiverPhone
    (with_receiverName
       (with_receiverId (with_status d "claimed") userId)
       (user_name user))
    (user_phone user).

Inductive transition (s : Store) : Store -> Prop :=
| tr_none : transition s s
| tr_user (u : User) :
    validateUser u = true ->
    transition s (mkStore (users s ++ [u]) (donations s))
| tr_donation (d : Donation) :
    validateDonation d = true ->
    status d = "available" ->
    receiverId d = None ->
    transition s (mkStore (users s) (donations s ++ [d]))
| tr_claim (userId : ObjectId) (user : User) (l1 l2 : list Donation)
    (d : Donation) :
    findUserById userId s = Some user ->
    user_userType user = "receiver" ->
    donations s = l1 ++ d :: l2 ->
    (forall y, In y l1 -> donation_id y <> donation_id d) ->
    status d = "available" ->
    transition s (mkStore (users s) (l1 ++ claimed d userId user :: l2)).

Definition live_status (d : Donation) : Prop :=
  status d = "available" \/ status d = "claimed".

Definition fixed_paths (d : Donation) :=
  (donation_id d, donorId d, donorName d, donorPhone d, foodName d,
   quantity d, category d, description d, pickupAddress d, expiryTime d,
   createdAt d).

Definition newer_first (a b : Donation) : Prop :=
  (createdAt b <= createdAt a)%Z.

Definition op_ok {X : Type} (op : Op X) : Prop :=
  match op with
  | Donation_save d => status d = "available"
  | Donation_save_modified doc => status doc = "claimed"
  | _ => True
  end.

Inductive safe : Prog Response -> Prop :=
| safe_Ret (r : Response) : safe (Ret r)
| safe_Await (X : Type) (op : Op X) (k : X -> Prog Response) :
    op_ok op -> (forall x, safe (k x)) -> safe (Await op k).

Definition task_safe (t : Task) : Prop :=
  match t with
  | Running p _ => safe p
  | Finished _ => True
  end.

Definition pool_ok (st : Store * list Task) : Prop :=
  Forall live_status (donations (fst st)) /\ Forall task_safe (snd st).

(** Both requests read before either writes. *)
Definition race_schedule : list nat := [0; 0; 1; 1; 0; 1; 0; 1]%nat.

(** The demo store after receiver 2 has claimed the bread, and the
    response to that claim. *)
Definition claimed_store : Store :=
  Eval vm_compute in fst (@exec demo_primitives (claimDonation 2 bread) demo_store).

Definition claimed_response : Response :=
  Eval vm_compute in snd (@exec demo_primitives (claimDonation 2 bread) demo_store).

Definition unknown_login : Body :=
  strings [("email", "nobody@x.com"); ("password", "pw-d")].

Definition wrong_password_login : Body :=
  strings [("email", "d@x.com"); ("password", "wrong")].

Definition donor_login : Body :=
  strings [("email", "d@x.com"); ("password", "pw-d")].

Definition donor_login_response : Response :=
  Eval vm_compute in
  snd (@exec demo_primitives
         (@login demo_primitives (demo_env 2000 11) donor_login) demo_store).

(** ** Vocabulary of the further properties *)

(** The keys the unique indexes protect: [_id] in both collections and
    [email] in the users. *)
Definition unique_keys (s : Store) : Prop :=
  NoDup (map user_id (users s)) /\
  NoDup (map user_email (users s)) /\
  NoDup (map donation_id (donations s)).

(** Routes whose handler awaits reads only. *)
Definition read_only (req : Request) : bool :=
  match req with
  | GET_health | GET_stats | POST_login _ | GET_donations
  | GET_my_donations _ | GET_claimed _ | Other_route => true
  | POST_register _ | POST_donations _ _ | PUT_claim _ _ => false
  end.

(** The status codes each route sends: those of its handler, the 500 (or
    503) of its [catch], and the 401 of [verifyToken] where it is used. *)
Definition route_statuses (req : Request) : list Z :=
  match req with
  | GET_health => [200; 503]
  | GET_stats => [200; 500]
  | POST_register _ => [201; 400; 500]
  | POST_login _ => [200; 400; 500]
  | POST_donations _ _ => [201; 400; 401; 403; 404; 500]
  | GET_donations => [200; 500]
  | GET_my_donations _ => [200; 401; 403; 404; 500]
  | PUT_claim _ _ => [200; 400; 401; 403; 404; 500]
  | GET_claimed _ => [200; 401; 403; 404; 500]
  | Other_route => [404]
  end%Z.

(** A donation whose donor stamp is the one of a stored user of type
    donor, and whose receiver stamp, once claimed, is the one of a stored
    user of type receiver. *)
Definition donor_linked (s : Store) (d : Donation) : Prop :=
  exists donor,
    findUserById (donorId d) s = Some donor /\
    user_userType donor = "donor" /\
    donorName d = user_name donor /\
    donorPhone d = user_phone donor.

Definition receiver_linked (s : Store) (d : Donation) : Prop :=
  (status d = "available" /\ receiverId d = None /\
   receiverName d = None /\ receiverPhone d = None) \/
  (status d = "claimed" /\
   exists r receiver,
     receiverId d = Some r /\
     findUserById r s = Some receiver /\
     user_userType receiver = "receiver" /\
     receiverName d = Some (user_name receiver) /\
     receiverPhone d = Some (user_phone receiver)).

Definition linked (s : Store) : Prop :=
  Forall (fun d => donor_linked s d /\ receiver_linked s d) (donations s).

(** What one request does to the store, with what it has checked. *)
Inductive change (s : Store) : Store -> Prop :=
| ch_none : change s s
| ch_user (u : User) :
    validateUser u = true ->
    findUserById (user_id u) s = None ->
    findUserByEmail (user_email u) s = None ->
    change s (mkStore (users s ++ [u]) (donations s))
| ch_donation (d : Donation) (donor : User) :
    validateDonation d = true ->
    findDonationById (donation_id d) s = None ->
    findUserById (donorId d) s = Some donor ->
    user_userType donor = "donor" ->
    donorName d = user_name donor ->
    donorPhone d = user_phone donor ->
    status d = "available" ->
    receiverId d = None ->
    receiverName d = None ->
    receiverPhone d = None ->
    change s (mkStore (users s) (donations s ++ [d]))
| ch_claim (userId : ObjectId) (user : User) (l1 l2 : list Donation)
    (d : Donation) :
    findUserById userId s = Some user ->
    user_userType user = "receiver" ->
    donations s = l1 ++ d :: l2 ->
    (forall y, In y l1 -> donation_id y <> donation_id d) ->
    status d = "available" ->
    change s (mkStore (users s) (l1 ++ claimed d userId user :: l2)).

(** The routes behind [verifyToken], with the header they were sent. *)
Definition protected (authorization : option string) (req : Request) : Prop :=
  match req with
  | POST_donations a _ | GET_my_donations a | PUT_claim a _ | GET_claimed a =>
      a = authorization
  | _ => False
  end.

(** The handler a protected route runs once [req.userId] is set. *)
Definition handler_as {P : Primitives} (env : Env) (userId : ObjectId)
  (req : Request) : Handler :=
  match req with
  | POST_donations _ body => createDonation env userId body
  | GET_my_donations _ => myDonations userId
  | PUT_claim _ id => claimDonation userId id
  | GET_claimed _ => claimedDonations userId
  | _ => app env req
  end.

(** Two requests that take turns, one step each. *)
Definition alternate_schedule : list nat := [0; 1; 0; 1; 0; 1; 0; 1]%nat.

(** The stored donation with this id is claimed. *)
Definition claimed_at (id : ObjectId) (s : Store) : Prop :=
  exists d, findDonationById id s = Some d /\ status d = "claimed".

(** Two logins whose password is a number: for an email no user of the
    demo store has, and for the email of its donor. *)
Definition number_login_unknown : Body :=
  [("email", VStr "nobody@x.com"); ("password", VNum 12345)].

Definition number_login_known : Body :=
  [("email", VStr "d@x.com"); ("password", VNum 12345)].

(** Further concrete inputs. *)
Definition newcomer_body : Body :=
  strings [("name", "N"); ("email", "n@x.com"); ("password", "pw-n");
   ("phone", "444"); ("userType", "donor"); ("address", "4 Main St")].

Definition newcomer2_body : Body :=
  strings [("name", "M"); ("email", "n@x.com"); ("password", "pw-m");
   ("phone", "555"); ("userType", "receiver"); ("address", "5 Main St")].

Definition newcomer : User :=
  mkUser 20%N "N" "n@x.com" "pw-n$salt" "444" "donor" "4 Main St" 4000%Z.

Definition newcomer2 : User :=
  mkUser 21%N "M" "n@x.com" "pw-m$salt" "555" "receiver" "5 Main St" 4001%Z.

(** The empty store after the donor has registered, and the response. *)
Definition donor_store : Store :=
  Eval vm_compute in
  fst (@exec demo_primitives (register (demo_env 1000 1) donor_body) empty_store).

Definition donor_registered : Response :=
  Eval vm_compute in
  snd (@exec demo_primitives (register (demo_env 1000 1) donor_body) empty_store).

(** * Properties *)

(** ** Lists and strings *)

Lemma find_app_some {A : Type} (f : A -> bool) (l l' : list A) (x : A) :
  find f l = Some x -> find f (l ++ l') = Some x.
Proof.
  induction l as [|a l IH]; simpl; [discriminate|].
  destruct (f a); auto.
Qed.

Lemma find_split {A} (f : A -> bool) (l : list A) (x : A) :
  find f l = Some x ->
  exists l1 l2, l = l1 ++ x :: l2 /\ f x = true /\
                forall y, In y l1 -> f y = false.
Proof.
  induction l as [|a l IH]; simpl; [discriminate|].
  destruct (f a) eqn:Fa.
  - intros [= ->]. exists [], l. simpl. intuition.
  - intros H. destruct (IH H) as (l1 & l2 & -> & Fx & Hl1).
    exists (a :: l1), l2. simpl. repeat split; auto.
    intros y [<-|Hy]; auto.
Qed.

Lemma find_middle {A} (f : A -> bool) (l1 l2 : list A) (x : A) :
  (forall y, In y l1 -> f y = false) -> f x = true ->
  find f (l1 ++ x :: l2) = Some x.
Proof.
  induction l1 as [|a l1 IH]; simpl; intros Hl1 Fx.
  - now rewrite Fx.
  - rewrite (Hl1 a) by auto. apply IH; auto.
Qed.

Lemma eqb_false_neq (a b : string) : negb (a =? b) = true <-> a <> b.
Proof.
  rewrite negb_true_iff. apply String.eqb_neq.
Qed.

(** ** The update sent by [save] *)

Lemma update_modified_middle (doc x : Donation) (l1 l2 : list Donation) :
  (forall y, In y l1 -> N.eqb (donation_id y) (donation_id doc) = false) ->
  N.eqb (donation_id x) (donation_id doc) = true ->
  update_modified doc (l1 ++ x :: l2) = Some (l1 ++ set_modified doc x :: l2).
Proof.
  induction l1 as [|a l1 IH]; simpl; intros Hl1 Hx.
  - now rewrite Hx.
  - rewrite (Hl1 a) by auto. rewrite IH; auto.
Qed.

Lemma validate_claimed (d : Donation) (userId : ObjectId) (user : User) :
  validateDonation d = true -> validateDonation (claimed d userId user) = true.
Proof.
  unfold validateDonation, claimed; cbn -[nonempty in_enum].
  rewrite !andb_true_iff. intuition.
Qed.

(** The operations that only read: every case of their outcome. *)
Ltac op_reads :=
  repeat match goal with
         | |- context [castObjectId ?i] => destruct (castObjectId i)
         | |- context [match ?p with Some _ => _ | None => _ end] =>
             is_var p; destruct p as [[| | |]|]
         end;
  cbn [fst].

Section Sequential.

Context {P : Primitives}.

(** ** The handlers as functions of the store *)

Lemma exec_claimDonation (s : Store) (userId : ObjectId) (id : string) :
  exec (claimDonation userId id) s =
  match findUserById userId s with
  | None => (s, message 404 "User not found")
  | Some user =>
      if negb (user_userType user =? "receiver")
      then (s, message 403 "Only receivers can claim donations")
      else match castObjectId id with
           | None => (s, server_error "Server error claiming donation" CastError)
           | Some oid =>
               match findDonationById oid s with
               | None => (s, message 404 "Donation not found")
               | Some d =>
                   if negb (status d =? "available")
                   then (s, message 400 "This donation is no longer available")
                   else match saveModified (claimed d userId user) s with
                        | (s', inr _) =>
                            (s', mkResponse 200
                                   (JObj [("message", JStr "Donation claimed successfully");
                                          ("donation", JDonation (claimed d userId user))]))
                        | (s', inl e) =>
                            (s', server_error "Server error claiming donation" e)
                        end
               end
           end
  end.
Proof.
  unfold exec, claimDonation; cbn [try_body catch run exec_op].
  destruct (findUserById userId s) as [user|]; [|reflexivity].
  destruct (negb (user_userType user =? "receiver")); [reflexivity|].
  cbn [run exec_op].
  destruct (castObjectId id) as [oid|]; [|reflexivity].
  destruct (findDonationById oid s) as [d|]; [|reflexivity].
  destruct (negb (status d =? "available")); [reflexivity|].
  cbn [run exec_op]. fold (claimed d userId user).
  destruct (saveModified (claimed d userId user) s) as [s' [e|[]]]; reflexivity.
Qed.

(** On a valid store the [save] of a claim reaches the stored document. *)
Lemma saveModified_claimed (s : Store) (userId id : ObjectId) (user : User)
  (d : Donation) :
  validateDonation (claimed d userId user) = true ->
  findDonationById id s = Some d ->
  exists l1 l2,
    donations s = l1 ++ d :: l2 /\
    (forall y, In y l1 -> donation_id y <> id) /\
    donation_id d = id /\
    saveModified (claimed d userId user) s =
      (mkStore (users s) (l1 ++ claimed d userId user :: l2), inr tt).
Proof.
  intros Hv Hf. unfold findDonationById in Hf.
  destruct (find_split _ _ _ Hf) as (l1 & l2 & Hl & Hx & Hl1).
  apply N.eqb_eq in Hx.
  exists l1, l2. repeat split; auto.
  - intros y Hy. apply N.eqb_neq. auto.
  - unfold saveModified. rewrite Hv. cbn [negb].
    rewrite Hl, update_modified_middle.
    + reflexivity.
    + intros y Hy. cbn. rewrite Hx. auto.
    + cbn. apply N.eqb_refl.
Qed.

Lemma forallb_find {A} (f g : A -> bool) (l : list A) (x : A) :
  forallb f l = true -> find g l = Some x -> f x = true.
Proof.
  intros Hall Hf. apply find_some in Hf as [Hin _].
  rewrite forallb_forall in Hall. auto.
Qed.

Lemma store_valid_donation (s : Store) (id : ObjectId) (d : Donation) :
  store_valid s = true -> findDonationById id s = Some d ->
  validateDonation d = true.
Proof.
  unfold store_valid. rewrite andb_true_iff. intros [_ H] Hf.
  eapply forallb_find; eauto.
Qed.

(** C1 (as the code has it). A claim by a user whose role is receiver
    on a donation whose status is available succeeds: the stored donation
    becomes claimed and carries the caller's id, name and phone.  The
    failures come in the order of the handler: 404 when the caller is not
    a user, then 403 when the caller's role is not receiver, then 404 when
    the id, cast to an object id, matches no donation, then 400 when the
    donation's status is not available; a failed claim leaves the store as
    it was.  The stored documents are taken to pass their schemas, as
    [save] validates the loaded donation again. *)
Theorem claimDonation_spec (s : Store) (userId : ObjectId) (id : string) :
  (findUserById userId s = None ->
   exec (claimDonation userId id) s = (s, message 404 "User not found")) /\
  (forall user, findUserById userId s = Some user ->
     user_userType user <> "receiver" ->
     exec (claimDonation userId id) s =
       (s, message 403 "Only receivers can claim donations")) /\
  (forall user oid, findUserById userId s = Some user ->
     user_userType user = "receiver" ->
     castObjectId id = Some oid ->
     findDonationById oid s = None ->
     exec (claimDonation userId id) s = (s, message 404 "Donation not found")) /\
  (forall user oid d, findUserById userId s = Some user ->
     user_userType user = "receiver" ->
     castObjectId id = Some oid ->
     findDonationById oid s = Some d ->
     status d <> "available" ->
     exec (claimDonation userId id) s =
       (s, message 400 "This donation is no longer available")) /\
  (forall user oid d, store_valid s = true ->
     findUserById userId s = Some user ->
     user_userType user = "receiver" ->
     castObjectId id = Some oid ->
     findDonationById oid s = Some d ->
     status d = "available" ->
     exists s' d',
       exec (claimDonation userId id) s =
         (s', mkResponse 200
                (JObj [("message", JStr "Donation claimed successfully");
                       ("donation", JDonation d')])) /\
       findDonationById oid s' = Some d' /\
       status d' = "claimed" /\
       receiverId d' = Some userId /\
       receiverName d' = Some (user_name user) /\
       receiverPhone d' = Some (user_phone user)).
Proof.
  rewrite exec_claimDonation.
  repeat split.
  - intros ->. reflexivity.
  - intros user -> Ht. apply eqb_false_neq in Ht. now rewrite Ht.
  - intros user oid -> Ht -> ->. apply String.eqb_eq in Ht. now rewrite Ht.
  - intros user oid d -> Ht -> -> Hs. apply String.eqb_eq in Ht.
    apply eqb_false_neq in Hs. now rewrite Ht, Hs.
  - intros user oid d Hv Hu Ht Hc Hd Hs. rewrite Hu, Hc, Hd.
    apply String.eqb_eq in Ht, Hs. rewrite Ht, Hs. cbn [negb].
    destruct (saveModified_claimed s userId oid user d
                (validate_claimed _ _ _ (store_valid_donation _ _ _ Hv Hd)) Hd)
      as (l1 & l2 & Hl & Hl1 & Hid & ->).
    exists (mkStore (users s) (l1 ++ claimed d userId user :: l2)),
           (claimed d userId user).
    repeat split.
    unfold findDonationById; cbn [donations]. apply find_middle.
    + intros y Hy. apply N.eqb_neq. auto.
    + cbn. now apply N.eqb_eq.
Qed.

Lemma saveModified_cases (s : Store) (d : Donation) (userId id : ObjectId)
  (user : User) :
  findDonationById id s = Some d ->
  (exists e, saveModified (claimed d userId user) s = (s, inl e)) \/
  (exists l1 l2,
     donations s = l1 ++ d :: l2 /\
     (forall y, In y l1 -> donation_id y <> donation_id d) /\
     saveModified (claimed d userId user) s =
       (mkStore (users s) (l1 ++ claimed d userId user :: l2), inr tt)).
Proof.
  intros Hf. destruct (validateDonation (claimed d userId user)) eqn:Hv.
  - right.
    destruct (saveModified_claimed s userId id user d Hv Hf)
      as (l1 & l2 & Hl & Hl1 & Hid & Hs).
    exists l1, l2. rewrite Hid. auto.
  - left. exists ValidationError. unfold saveModified. now rewrite Hv.
Qed.

Lemma exec_createDonation (s : Store) (env : Env) (userId : ObjectId)
  (body : Body) :
  exec (createDonation env userId body) s =
  if falsy (prop "foodName" body) || falsy (prop "quantity" body) ||
     falsy (prop "category" body) || falsy (prop "pickupAddress" body) ||
     falsy (prop "expiryTime" body)
  then (s, message 400 "All required fields must be filled")
  else match findUserById userId s with
       | None => (s, message 404 "User not found")
       | Some user =>
           if negb (user_userType user =? "donor")
           then (s, message 403 "Only donors can create donations")
           else
             let donation :=
               mkDonation (new_id env) userId (user_name user) (user_phone user)
                          (str (prop "foodName" body))
                          (str (prop "quantity" body))
                          (str (prop "category" body))
                          (optional (prop "description" body))
                          (str (prop "pickupAddress" body))
                          (str (prop "expiryTime" body))
                          "available" None None None (now env) in
             match insertDonation donation s with
             | (s', inr _) =>
                 (s', mkResponse 201
                        (JObj [("message", JStr "Donation created successfully");
                               ("donation", JDonation donation)]))
             | (s', inl e) =>
                 (s', server_error "Server error creating donation" e)
             end
       end.
Proof.
  unfold exec, createDonation; cbn [try_body catch].
  destruct (_ || _); [reflexivity|].
  cbn [run exec_op].
  destruct (findUserById userId s) as [user|]; [|reflexivity].
  destruct (negb (user_userType user =? "donor")); [reflexivity|].
  cbn [run exec_op].
  destruct (insertDonation _ s) as [s' [e|[]]]; reflexivity.
Qed.

Lemma exec_register (s : Store) (env : Env) (body : Body) :
  exec (register env body) s =
  if falsy (prop "name" body) || falsy (prop "email" body) ||
     falsy (prop "password" body) || falsy (prop "phone" body) ||
     falsy (prop "userType" body) || falsy (prop "address" body)
  then (s, message 400 "All fields are required")
  else match findUserByEmail (str (prop "email" body)) s with
       | Some _ => (s, message 400 "User already exists with this email")
       | None =>
           if negb (is_string (prop "password" body))
           then (s, server_error "Server error during registration"
                      IllegalArguments)
           else
           let user :=
             mkUser (new_id env) (str (prop "name" body))
                    (str (prop "email" body))
                    (bcrypt_hash (str (prop "password" body)) (salt env))
                    (str (prop "phone" body)) (str (prop "userType" body))
                    (str (prop "address" body)) (now env) in
           match insertUser user s with
           | (s', inr _) =>
               (s', mkResponse 201
                      (JObj [("message", JStr "User registered successfully");
                             ("user", JObj [("id", JId (user_id user));
                                            ("name", JStr (user_name user));
                                            ("email", JStr (user_email user));
                                            ("userType", JStr (user_userType user))])]))
           | (s', inl e) =>
               (s', server_error "Server error during registration" e)
           end
       end.
Proof.
  unfold exec, register; cbn [try_body catch].
  destruct (_ || _); [reflexivity|].
  cbn [run exec_op].
  destruct (findUserByEmail _ s); [reflexivity|].
  cbn [run exec_op].
  destruct (prop "password" body) as [[|b|n|p]|]; try reflexivity.
  cbn [is_string negb str run exec_op].
  destruct (insertUser _ s) as [s' [e|[]]]; reflexivity.
Qed.

Lemma exec_login (s : Store) (env : Env) (body : Body) :
  exec (login env body) s =
  (s,
   if falsy (prop "email" body) || falsy (prop "password" body)
   then message 400 "Email and password are required"
   else match findUserByEmail (str (prop "email" body)) s with
        | None => message 400 "Invalid email or password"
        | Some user =>
            if negb (is_string (prop "password" body))
            then server_error "Server error during login" IllegalArguments
            else
            if negb (bcrypt_compare (str (prop "password" body))
                                    (user_password user))
            then message 400 "Invalid email or password"
            else mkResponse 200
                   (JObj [("token", JStr (jwt_sign (user_id user) JWT_SECRET
                                                   (now env)));
                          ("user", JObj [("id", JId (user_id user));
                                         ("name", JStr (user_name user));
                                         ("email", JStr (user_email user));
                                         ("userType", JStr (user_userType user));
                                         ("phone", JStr (user_phone user));
                                         ("address", JStr (user_address user))])])
        end).
Proof.
  unfold exec, login; cbn [try_body catch].
  destruct (_ || _); [reflexivity|].
  cbn [run exec_op].
  destruct (findUserByEmail _ s) as [user|]; [|reflexivity].
  cbn [run exec_op].
  destruct (prop "password" body) as [[|b|n|p]|]; try reflexivity.
  cbn [is_string negb str].
  destruct (negb _); reflexivity.
Qed.

(** ** What one request does to the store *)

Lemma insertUser_transition (u : User) (s : Store) :
  transition s (fst (insertUser u s)).
Proof.
  unfold insertUser. destruct (validateUser u) eqn:Hv; cbn [negb].
  - destruct (existsb _ _); cbn [fst]; [constructor|]. now apply tr_user.
  - constructor.
Qed.

Lemma claim_transition (s : Store) (userId : ObjectId) (id : string) :
  transition s (fst (exec (claimDonation userId id) s)).
Proof.
  rewrite exec_claimDonation.
  destruct (findUserById userId s) as [user|] eqn:Hu; [|constructor].
  destruct (user_userType user =? "receiver") eqn:Ht; [|constructor].
  cbn [negb]. apply String.eqb_eq in Ht.
  destruct (castObjectId id) as [oid|]; [|constructor].
  destruct (findDonationById oid s) as [d|] eqn:Hd; [|constructor].
  destruct (status d =? "available") eqn:Hs; [|constructor].
  cbn [negb]. apply String.eqb_eq in Hs.
  destruct (saveModified_cases s d userId oid user Hd)
    as [[e ->]|(l1 & l2 & Hl & Hl1 & ->)]; cbn [fst]; [constructor|].
  now apply tr_claim.
Qed.

Lemma createDonation_transition (s : Store) (env : Env) (userId : ObjectId)
  (body : Body) :
  transition s (fst (exec (createDonation env userId body) s)).
Proof.
  rewrite exec_createDonation.
  destruct (_ || _); [constructor|].
  destruct (findUserById userId s) as [user|]; [|constructor].
  destruct (negb _); [constructor|].
  cbv zeta. unfold insertDonation.
  destruct (validateDonation _) eqn:Hv; cbn [negb]; [|constructor].
  destruct (existsb _ _); cbn [fst]; [constructor|].
  now apply tr_donation.
Qed.

Lemma register_transition (s : Store) (env : Env) (body : Body) :
  transition s (fst (exec (register env body) s)).
Proof.
  rewrite exec_register.
  destruct (_ || _); [constructor|].
  destruct (findUserByEmail _ s); [constructor|].
  destruct (negb (is_string _)); [constructor|].
  cbv zeta.
  match goal with |- context [insertUser ?u s] =>
    pose proof (insertUser_transition u s) as H;
    destruct (insertUser u s) as [s' [e|[]]] end; exact H.
Qed.

Lemma guarded_transition (s : Store) (authorization : option string)
  (env : Env) (next : ObjectId -> Handler) :
  (forall userId, transition s (fst (exec (next userId) s))) ->
  transition s (fst (exec (guarded authorization env next) s)).
Proof.
  intros H. unfold guarded.
  destruct (verifyToken authorization env); [constructor|apply H].
Qed.

Lemma serve_transition (s : Store) (er : Env * Request) :
  transition s (fst (serve s er)).
Proof.
  destruct er as [env req]. unfold serve; cbn [fst snd].
  destruct req; cbn [app].
  - unfold exec, health; cbn [try_body]. destruct (_ =? _)%Z; constructor.
  - constructor.
  - apply register_transition.
  - rewrite exec_login. constructor.
  - apply guarded_transition. intros. apply createDonation_transition.
  - constructor.
  - apply guarded_transition. intros userId.
    unfold exec, myDonations; cbn [try_body catch run exec_op].
    destruct (findUserById userId s) as [user|]; [|constructor].
    destruct (negb _); constructor.
  - apply guarded_transition. intros. apply claim_transition.
  - apply guarded_transition. intros userId.
    unfold exec, claimedDonations; cbn [try_body catch run exec_op].
    destruct (findUserById userId s) as [user|]; [|constructor].
    destruct (negb _); constructor.
  - constructor.
Qed.

(** A property kept by every transition holds after any sequence of
    requests. *)
Lemma serve_all_invariant (Inv : Store -> Prop) :
  (forall s s', Inv s -> transition s s' -> Inv s') ->
  forall reqs s, Inv s -> Inv (serve_all s reqs).
Proof.
  intros Hstep reqs. induction reqs as [|er reqs IH]; intros s Hs.
  - exact Hs.
  - cbn. apply IH. eapply Hstep; [exact Hs|apply serve_transition].
Qed.

(** ** Validity of the stored documents *)

Lemma transition_valid (s s' : Store) :
  store_valid s = true -> transition s s' -> store_valid s' = true.
Proof.
  unfold store_valid. rewrite !andb_true_iff. intros [Hu Hd] T.
  destruct T as [|u Hv|d Hv _ _|userId user l1 l2 d _ _ Hl _ _]; cbn [users donations].
  - auto.
  - split; auto. rewrite forallb_app, Hu. cbn. now rewrite Hv.
  - split; auto. rewrite forallb_app, Hd. cbn. now rewrite Hv.
  - split; auto. rewrite Hl in Hd. rewrite forallb_app in *.
    cbn [forallb] in *. rewrite !andb_true_iff in *.
    destruct Hd as (H1 & H2 & H3). repeat split; auto.
    now apply validate_claimed.
Qed.

Lemma serve_all_valid (reqs : list (Env * Request)) (s : Store) :
  store_valid s = true -> store_valid (serve_all s reqs) = true.
Proof.
  apply (serve_all_invariant (fun s => store_valid s = true)).
  intros; eapply transition_valid; eauto.
Qed.

(** ** The status of a stored donation *)

Lemma transition_live (s s' : Store) :
  Forall live_status (donations s) -> transition s s' ->
  Forall live_status (donations s').
Proof.
  intros H T.
  destruct T as [|u Hv|d Hv Hs _|userId user l1 l2 d _ _ Hl _ _]; cbn [donations]; auto.
  - apply Forall_app. split; auto. constructor; [now left|constructor].
  - rewrite Hl in H. apply Forall_app in H as [H1 H2].
    apply Forall_app. split; auto. inversion H2; subst.
    constructor; auto. now right.
Qed.

(** ** A claimed donation stays as it is *)

Lemma find_replace {A : Type} (f : A -> bool) (l1 l2 : list A) (x y : A) :
  f x = false -> f y = false ->
  find f (l1 ++ y :: l2) = find f (l1 ++ x :: l2).
Proof.
  intros Fx Fy. induction l1 as [|a l1 IH]; cbn.
  - now rewrite Fx, Fy.
  - destruct (f a); auto.
Qed.

Lemma transition_keeps_claimed (s s' : Store) (id : ObjectId) (d : Donation) :
  transition s s' ->
  findDonationById id s = Some d -> status d <> "available" ->
  findDonationById id s' = Some d.
Proof.
  intros T H Hs.
  destruct T as [|u Hv|d0 Hv _ _|userId user l1 l2 d0 _ _ Hl Hl1 Hs0]; auto.
  - unfold findDonationById; cbn [donations]. now apply find_app_some.
  - unfold findDonationById in *; cbn [donations]. rewrite Hl in H.
    destruct (N.eqb (donation_id d0) id) eqn:E.
    + rewrite find_middle in H; auto.
      * congruence.
      * intros y Hy. apply N.eqb_eq in E. subst id. apply N.eqb_neq. auto.
    + rewrite <- H. apply find_replace; auto.
Qed.

(** ** The paths no handler assigns *)

Lemma transition_frame (s s' : Store) :
  transition s s' ->
  (exists l, users s' = users s ++ l) /\
  (exists l, map fixed_paths (donations s') =
             map fixed_paths (donations s) ++ l).
Proof.
  intros T.
  destruct T as [|u Hv|d Hv _ _|userId user l1 l2 d _ _ Hl _ _]; cbn [users donations].
  - split; exists []; now rewrite app_nil_r.
  - split; [now exists [u]|exists []; now rewrite app_nil_r].
  - split; [exists []; now rewrite app_nil_r|].
    exists [fixed_paths d]. now rewrite map_app.
  - split; exists []; rewrite app_nil_r; auto.
    rewrite Hl, !map_app. reflexivity.
Qed.

(** A claim answered with 200 went through every check and its [save]. *)
Lemma claim_success_inv (s s' : Store) (userId : ObjectId) (id : string)
  (resp : Response) :
  exec (claimDonation userId id) s = (s', resp) ->
  res_status resp = 200%Z ->
  exists user d l1 l2,
    findUserById userId s = Some user /\
    user_userType user = "receiver" /\
    findDonationById (donation_id d) s = Some d /\
    status d = "available" /\
    donations s = l1 ++ d :: l2 /\
    (forall y, In y l1 -> donation_id y <> donation_id d) /\
    castObjectId id = Some (donation_id d) /\
    s' = mkStore (users s) (l1 ++ claimed d userId user :: l2) /\
    resp = mkResponse 200
             (JObj [("message", JStr "Donation claimed successfully");
                    ("donation", JDonation (claimed d userId user))]).
Proof.
  rewrite exec_claimDonation.
  destruct (findUserById userId s) as [user|] eqn:Hu;
    [|intros [= <- <-]; discriminate].
  destruct (user_userType user =? "receiver") eqn:Ht; cbn [negb];
    [|intros [= <- <-]; discriminate].
  destruct (castObjectId id) as [oid|] eqn:Hc;
    [|intros [= <- <-]; discriminate].
  destruct (findDonationById oid s) as [d|] eqn:Hd;
    [|intros [= <- <-]; discriminate].
  destruct (status d =? "available") eqn:Hs; cbn [negb];
    [|intros [= <- <-]; discriminate].
  apply String.eqb_eq in Ht, Hs.
  assert (Hid : donation_id d = oid).
  { unfold findDonationById in Hd. apply find_some in Hd as [_ Hd].
    now apply N.eqb_eq. }
  destruct (saveModified_cases s d userId oid user Hd)
    as [[e ->]|(l1 & l2 & Hl & Hl1 & ->)];
    [intros [= <- <-]; discriminate|].
  intros [= <- <-] _. exists user, d, l1, l2. subst oid.
  repeat split; auto.
Qed.

(** C2. After a claim of a donation has succeeded for receiver [r1], and
    whatever requests are served afterwards, the donation is still claimed
    with the id, name and phone of [r1]; every later claim of it, under
    any text of its id, fails and leaves the store unchanged, and it fails
    with 400 when the caller is a receiver. *)
Theorem claim_at_most_once (s s1 : Store) (r1 : ObjectId) (id : string)
  (resp : Response) (reqs : list (Env * Request)) :
  exec (claimDonation r1 id) s = (s1, resp) ->
  res_status resp = 200%Z ->
  let s2 := serve_all s1 reqs in
  exists user1 oid d,
    findUserById r1 s = Some user1 /\
    castObjectId id = Some oid /\
    findDonationById oid s2 = Some d /\
    status d = "claimed" /\
    receiverId d = Some r1 /\
    receiverName d = Some (user_name user1) /\
    receiverPhone d = Some (user_phone user1) /\
    forall r2 id2, castObjectId id2 = Some oid ->
      fst (exec (claimDonation r2 id2) s2) = s2 /\
      res_status (snd (exec (claimDonation r2 id2) s2)) <> 200%Z /\
      (forall user2, findUserById r2 s2 = Some user2 ->
         user_userType user2 = "receiver" ->
         exec (claimDonation r2 id2) s2 =
           (s2, message 400 "This donation is no longer available")).
Proof.
  intros He Hok s2.
  destruct (claim_success_inv _ _ _ _ _ He Hok)
    as (user1 & d & l1 & l2 & Hu & _ & _ & _ & Hl & Hl1 & Hid & -> & _).
  assert (Hd2 : findDonationById (donation_id d) s2 = Some (claimed d r1 user1)).
  { subst s2.
    apply (serve_all_invariant
             (fun s => findDonationById (donation_id d) s =
                       Some (claimed d r1 user1))).
    - intros a b Ha T. eapply transition_keeps_claimed; eauto. discriminate.
    - unfold findDonationById; cbn [donations]. apply find_middle.
      + intros y Hy. apply N.eqb_neq. auto.
      + cbn. apply N.eqb_refl. }
  exists user1, (donation_id d), (claimed d r1 user1).
  split; [exact Hu|]. split; [exact Hid|]. split; [exact Hd2|].
  split; [reflexivity|]. split; [reflexivity|]. split; [reflexivity|].
  split; [reflexivity|].
  intros r2 id2 Hc2. split; [|split].
  - rewrite exec_claimDonation, Hc2, Hd2.
    destruct (findUserById r2 s2); [|reflexivity].
    destruct (negb _); reflexivity.
  - rewrite exec_claimDonation, Hc2, Hd2.
    destruct (findUserById r2 s2); [|discriminate].
    destruct (negb _); discriminate.
  - intros user2 Hu2 Ht. rewrite exec_claimDonation, Hu2, Hc2, Hd2.
    apply String.eqb_eq in Ht. now rewrite Ht.
Qed.

(** C7. No sequence of requests changes a stored user or the donor
    identity, the food attributes, the id or the creation time of a stored
    donation: documents are only added after the existing ones.  A claim
    that succeeds leaves the users as they are and replaces one donation,
    in place, by a copy that differs in [status], [receiverId],
    [receiverName] and [receiverPhone] only. *)
Theorem claim_frame :
  (forall s reqs,
     (exists l, users (serve_all s reqs) = users s ++ l) /\
     (exists l, map fixed_paths (donations (serve_all s reqs)) =
                map fixed_paths (donations s) ++ l)) /\
  (forall s s' userId id resp,
     exec (claimDonation userId id) s = (s', resp) ->
     res_status resp = 200%Z ->
     users s' = users s /\
     exists user l1 d l2,
       findUserById userId s = Some user /\
       castObjectId id = Some (donation_id d) /\
       donations s = l1 ++ d :: l2 /\
       donations s' =
         l1 ++ mkDonation (donation_id d) (donorId d) (donorName d)
                 (donorPhone d) (foodName d) (quantity d) (category d)
                 (description d) (pickupAddress d) (expiryTime d)
                 "claimed" (Some userId) (Some (user_name user))
                 (Some (user_phone user)) (createdAt d) :: l2).
Proof.
  split.
  - intros s reqs.
    apply (serve_all_invariant
             (fun x => (exists l, users x = users s ++ l) /\
                       (exists l, map fixed_paths (donations x) =
                                  map fixed_paths (donations s) ++ l))).
    + intros a b [[lu Hu] [ld Hd]] T.
      destruct (transition_frame _ _ T) as [[lu' Hu'] [ld' Hd']].
      split.
      * exists (lu ++ lu'). now rewrite Hu', Hu, app_assoc.
      * exists (ld ++ ld'). now rewrite Hd', Hd, app_assoc.
    + split; exists []; now rewrite app_nil_r.
  - intros s s' userId id resp He Hok.
    destruct (claim_success_inv _ _ _ _ _ He Hok)
      as (user & d & l1 & l2 & Hu & _ & _ & _ & Hl & _ & Hid & -> & _).
    split; [reflexivity|].
    exists user, l1, d, l2. repeat split; auto.
Qed.

(** ** Sorting by creation time *)

Lemma insert_desc_perm (d : Donation) (l : list Donation) :
  Permutation (insert_desc d l) (d :: l).
Proof.
  induction l as [|x l IH]; cbn; [reflexivity|].
  destruct (createdAt x <=? createdAt d)%Z; [reflexivity|].
  rewrite IH. apply perm_swap.
Qed.

Lemma sort_desc_perm (l : list Donation) : Permutation (sort_desc l) l.
Proof.
  induction l as [|d l IH]; cbn; [reflexivity|].
  rewrite insert_desc_perm. now constructor.
Qed.

Lemma insert_desc_Forall (Q : Donation -> Prop) (d : Donation)
  (l : list Donation) :
  Q d -> Forall Q l -> Forall Q (insert_desc d l).
Proof.
  intros Hd Hl. eapply Permutation_Forall.
  - symmetry. apply insert_desc_perm.
  - now constructor.
Qed.

Lemma insert_desc_sorted (d : Donation) (l : list Donation) :
  StronglySorted newer_first l -> StronglySorted newer_first (insert_desc d l).
Proof.
  induction 1 as [|x l Hl IH Hx]; cbn.
  - repeat constructor.
  - destruct (createdAt x <=? createdAt d)%Z eqn:E.
    + apply Z.leb_le in E. constructor; [now constructor|].
      constructor; [exact E|].
      eapply Forall_impl; [|exact Hx].
      unfold newer_first. intros; lia.
    + apply Z.leb_gt in E. constructor; [exact IH|].
      apply insert_desc_Forall; [unfold newer_first; lia|exact Hx].
Qed.

Lemma sort_desc_sorted (l : list Donation) :
  StronglySorted newer_first (sort_desc l).
Proof.
  induction l as [|d l IH]; cbn; [constructor|].
  now apply insert_desc_sorted.
Qed.

(** C6. On every store the list of available donations is answered with
    200 and holds exactly the stored donations whose status is available,
    the newest first; no claimed or completed donation is in it, and the
    store is left as it is. *)
Theorem listAvailable_spec (s : Store) :
  exists l,
    exec listAvailable s = (s, mkResponse 200 (JArr (map JDonation l))) /\
    Permutation l (filter (fun d => status d =? "available") (donations s)) /\
    StronglySorted (fun a b => (createdAt b <= createdAt a)%Z) l /\
    (forall d, In d l <-> In d (donations s) /\ status d = "available") /\
    Forall (fun d => status d <> "claimed" /\ status d <> "completed") l.
Proof.
  exists (sort_desc (filter (matches (ByStatus "available")) (donations s))).
  assert (Hp := sort_desc_perm (filter (matches (ByStatus "available"))
                                       (donations s))).
  assert (Hin : forall d,
             In d (sort_desc (filter (matches (ByStatus "available"))
                                     (donations s))) <->
             In d (donations s) /\ status d = "available").
  { intros d. split.
    - intros H. apply (Permutation_in _ Hp) in H.
      apply filter_In in H as [H1 H2]. cbn in H2.
      apply String.eqb_eq in H2. auto.
    - intros [H1 H2]. apply (Permutation_in _ (Permutation_sym Hp)).
      apply filter_In. split; auto. cbn. now apply String.eqb_eq. }
  split; [reflexivity|].
  split; [exact Hp|].
  split; [apply sort_desc_sorted|].
  split; [exact Hin|].
  apply Forall_forall. intros d Hd. apply Hin in Hd as [_ ->].
    split; discriminate.
Qed.

(** C4 (as the code has it). The body is validated first: a request
    with a required field missing or empty is answered 400 whoever sends
    it.  Only with all of foodName, quantity, category, pickupAddress and
    expiryTime present does the handler look the caller up (404 when
    absent) and then check the role (403 when it is not donor); so a
    receiver gets 403 for every such body, and 400 for the others. *)
Theorem createDonation_validation_first (s : Store) (env : Env)
  (userId : ObjectId) (body : Body) :
  let incomplete :=
    falsy (prop "foodName" body) || falsy (prop "quantity" body) ||
    falsy (prop "category" body) || falsy (prop "pickupAddress" body) ||
    falsy (prop "expiryTime" body) in
  (incomplete = true ->
   exec (createDonation env userId body) s =
     (s, message 400 "All required fields must be filled")) /\
  (incomplete = false -> findUserById userId s = None ->
   exec (createDonation env userId body) s = (s, message 404 "User not found")) /\
  (forall user, incomplete = false -> findUserById userId s = Some user ->
     user_userType user <> "donor" ->
     exec (createDonation env userId body) s =
       (s, message 403 "Only donors can create donations")) /\
  (forall user, findUserById userId s = Some user ->
     user_userType user = "receiver" ->
     exec (createDonation env userId body) s =
       (s, if incomplete
           then message 400 "All required fields must be filled"
           else message 403 "Only donors can create donations")).
Proof.
  intros incomplete. rewrite exec_createDonation. fold incomplete.
  repeat split.
  - intros ->. reflexivity.
  - intros -> ->. reflexivity.
  - intros user -> -> Ht. apply eqb_false_neq in Ht. now rewrite Ht.
  - intros user -> Ht. destruct incomplete; [reflexivity|].
    rewrite Ht. reflexivity.
Qed.

(** X21. A login with an email no user has and a login with the email of
    a user and a string password that does not match are answered alike:
    400 with the message "Invalid email or password", and the store is
    left as it is in both cases. *)
Theorem login_failure_indistinguishable (s1 s2 : Store) (env1 env2 : Env)
  (body1 body2 : Body) (user : User) :
  falsy (prop "email" body1) = false ->
  falsy (prop "password" body1) = false ->
  falsy (prop "email" body2) = false ->
  falsy (prop "password" body2) = false ->
  is_string (prop "password" body2) = true ->
  findUserByEmail (str (prop "email" body1)) s1 = None ->
  findUserByEmail (str (prop "email" body2)) s2 = Some user ->
  bcrypt_compare (str (prop "password" body2)) (user_password user) = false ->
  exec (login env1 body1) s1 = (s1, message 400 "Invalid email or password") /\
  exec (login env2 body2) s2 = (s2, message 400 "Invalid email or password") /\
  snd (exec (login env1 body1) s1) = snd (exec (login env2 body2) s2).
Proof.
  intros E1 P1 E2 P2 S2 Hnone Hsome Hcmp.
  rewrite !exec_login, E1, P1, E2, P2, S2, Hnone, Hsome, Hcmp.
  repeat split.
Qed.

(** With a password that is truthy but not a string (a number, [true]),
    the handler answers 400 when no user has the email, and its [catch]
    answers 500 when a user has it, since [bcrypt.compare] throws. *)
Lemma login_non_string_password (s : Store) (env : Env) (body : Body) :
  falsy (prop "email" body) = false ->
  falsy (prop "password" body) = false ->
  is_string (prop "password" body) = false ->
  exec (login env body) s =
  (s, match findUserByEmail (str (prop "email" body)) s with
      | None => message 400 "Invalid email or password"
      | Some _ => server_error "Server error during login" IllegalArguments
      end).
Proof.
  intros E Pw S. rewrite exec_login, E, Pw, S. cbn [orb negb].
  destruct (findUserByEmail _ s); reflexivity.
Qed.

(** C9. A registration answered 201 returns a user object with the
    properties id, name, email and userType and no other; a login
    answered 200 returns the token and a user object with the properties
    id, name, email, userType, phone and address and no other.  Neither
    has a property for the stored password. *)
Theorem responses_hide_password :
  (forall s env body s' resp,
     exec (register env body) s = (s', resp) ->
     res_status resp = 201%Z ->
     exists user,
       In user (users s') /\
       res_body resp =
         JObj [("message", JStr "User registered successfully");
               ("user", JObj [("id", JId (user_id user));
                              ("name", JStr (user_name user));
                              ("email", JStr (user_email user));
                              ("userType", JStr (user_userType user))])] /\
       option_map keys (get "user" (res_body resp)) =
         Some ["id"; "name"; "email"; "userType"]) /\
  (forall s env body s' resp,
     exec (login env body) s = (s', resp) ->
     res_status resp = 200%Z ->
     exists user,
       findUserByEmail (str (prop "email" body)) s = Some user /\
       res_body resp =
         JObj [("token", JStr (jwt_sign (user_id user) JWT_SECRET (now env)));
               ("user", JObj [("id", JId (user_id user));
                              ("name", JStr (user_name user));
                              ("email", JStr (user_email user));
                              ("userType", JStr (user_userType user));
                              ("phone", JStr (user_phone user));
                              ("address", JStr (user_address user))])] /\
       keys (res_body resp) = ["token"; "user"] /\
       option_map keys (get "user" (res_body resp)) =
         Some ["id"; "name"; "email"; "userType"; "phone"; "address"]).
Proof.
  split; intros s env body s' resp.
  - rewrite exec_register.
    destruct (_ || _); [intros [= <- <-]; discriminate|].
    destruct (findUserByEmail _ s); [intros [= <- <-]; discriminate|].
    destruct (negb (is_string _)); [intros [= <- <-]; discriminate|].
    cbv zeta. unfold insertUser.
    destruct (negb _); [intros [= <- <-]; discriminate|].
    destruct (existsb _ _); [intros [= <- <-]; discriminate|].
    intros [= <- <-] _.
    match goal with
    | |- exists _, In _ (users (mkStore (_ ++ [?u]) _)) /\ _ => exists u
    end.
    split; [|split; reflexivity].
    cbn [users]. apply in_or_app. right. now left.
  - rewrite exec_login.
    destruct (_ || _); [intros [= <- <-]; discriminate|].
    destruct (findUserByEmail _ s) as [user|]; [|intros [= <- <-]; discriminate].
    destruct (negb (is_string _)); [intros [= <- <-]; discriminate|].
    destruct (negb _); [intros [= <- <-]; discriminate|].
    intros [= <- <-] _.
    exists user. repeat split.
Qed.

(** ** The Authorization header *)

Lemma split_no_space (s : string) :
  no_space s = true -> split " " s = [s].
Proof.
  induction s as [|c s IH]; cbn [no_space split]; [reflexivity|].
  rewrite andb_true_iff, negb_true_iff. intros [-> Hs].
  now rewrite (IH Hs).
Qed.

Lemma split_word_token (word token : string) :
  no_space word = true -> no_space token = true ->
  split " " (word ++ " " ++ token)%string = [word; token].
Proof.
  intros Hw Ht. induction word as [|c w IH].
  - cbn. now rewrite split_no_space.
  - cbn [no_space] in Hw. rewrite andb_true_iff, negb_true_iff in Hw.
    destruct Hw as [Hc Hw].
    change (String c w ++ " " ++ token)%string
      with (String c (w ++ " " ++ token))%string.
    cbn [split]. rewrite Hc, (IH Hw). reflexivity.
Qed.

(** C10. The middleware does not look at the first word of the
    Authorization header: for a header made of a word, a space and a
    non-empty token, both without spaces, the request is authenticated as
    the user of the token whenever the token verifies against
    [JWT_SECRET], whatever the word is.  A header without a space has no
    second part and is answered 401 "No token provided". *)
Theorem verifyToken_ignores_scheme (env : Env) :
  (forall word token userId,
     no_space word = true -> no_space token = true -> token <> "" ->
     jwt_verify token JWT_SECRET (now env) = Some userId ->
     verifyToken (Some (word ++ " " ++ token)%string) env = inr userId) /\
  (forall header,
     no_space header = true ->
     verifyToken (Some header) env = inl (message 401 "No token provided")).
Proof.
  split.
  - intros word token userId Hw Ht Hne Hv. unfold verifyToken.
    rewrite split_word_token by assumption.
    cbn [nth_error option_map falsy str].
    apply String.eqb_neq in Hne. now rewrite Hne, Hv.
  - intros header Hh. unfold verifyToken.
    now rewrite split_no_space.
Qed.

End Sequential.

Section Interleaved.

Context {P : Primitives}.

(** ** A handler run alone is one of its interleavings *)

Lemma iterate_run (p : Prog Response) (c : Exn -> Response) (s : Store) :
  iterate (steps_of p s) (s, Running p c) =
  (fst (exec (mkHandler p c) s), Finished (snd (exec (mkHandler p c) s))).
Proof.
  unfold exec; cbn [try_body catch]. revert s.
  induction p as [r|X op k IH]; intros s.
  - reflexivity.
  - cbn [steps_of run]. destruct (exec_op op s) as [s' [e|x]] eqn:E.
    + cbn. now rewrite E.
    + cbn [iterate fst snd step_task]. rewrite E. apply IH.
Qed.

(** ** What the requests in flight may still write *)

Ltac safe_body :=
  repeat first
    [ apply safe_Ret
    | apply safe_Await; [first [exact I | reflexivity] | intros]
    | match goal with
      | |- safe (match ?x with _ => _ end) => destruct x
      end ].

Lemma app_safe (env : Env) (req : Request) : safe (try_body (app env req)).
Proof.
  destruct req; cbn [app];
    try match goal with
        | |- context [guarded ?a ?e ?n] =>
            unfold guarded; destruct (verifyToken a e)
        end;
    cbn [try_body health stats register login createDonation listAvailable
         myDonations claimDonation claimedDonations];
    safe_body.
Qed.

Lemma update_modified_live (doc : Donation) (l l' : list Donation) :
  status doc = "claimed" -> Forall live_status l ->
  update_modified doc l = Some l' -> Forall live_status l'.
Proof.
  intros Hdoc. revert l'. induction l as [|x l IH]; cbn; intros l' Hl;
    [discriminate|].
  inversion Hl; subst.
  destruct (N.eqb _ _).
  - intros [= <-]. constructor; auto. right. exact Hdoc.
  - destruct (update_modified doc l) as [r|]; [|discriminate].
    intros [= <-]. constructor; auto.
Qed.

Lemma exec_op_live (X : Type) (op : Op X) (s : Store) :
  op_ok op -> Forall live_status (donations s) ->
  Forall live_status (donations (fst (exec_op op s))).
Proof.
  destruct op; cbn [exec_op fst op_ok]; try op_reads; auto.
  - intros _ H. unfold insertUser.
    destruct (negb _); auto. destruct (existsb _ _); auto.
  - intros Hd H. unfold insertDonation.
    destruct (negb _); auto. destruct (existsb _ _); auto.
    cbn. apply Forall_app. split; auto. constructor; [now left|constructor].
  - intros Hd H. unfold saveModified.
    destruct (negb _); auto.
    destruct (update_modified doc (donations s)) as [l|] eqn:E; auto.
    cbn. eapply update_modified_live; eauto.
Qed.

Lemma safe_Await_inv (X : Type) (op : Op X) (k : X -> Prog Response) :
  safe (Await op k) -> op_ok op /\ forall x, safe (k x).
Proof.
  intros H.
  exact (match H in safe p return
               match p with
               | Await o k0 => op_ok o /\ forall y, safe (k0 y)
               | Ret _ => True
               end
         with
         | safe_Ret _ => I
         | safe_Await _ _ _ h1 h2 => conj h1 h2
         end).
Qed.

Lemma step_task_ok (t : Task) (s : Store) :
  Forall live_status (donations s) -> task_safe t ->
  Forall live_status (donations (fst (step_task t s))) /\
  task_safe (snd (step_task t s)).
Proof.
  intros Hs Ht. destruct t as [[r|X op k] c|r]; cbn [step_task]; auto.
  - split; [exact Hs|exact I].
  - apply safe_Await_inv in Ht as [Hop Hk].
    pose proof (exec_op_live X op s Hop Hs) as H.
    destruct (exec_op op s) as [s' [e|x]]; cbn [fst snd] in *.
    + split; [exact H|exact I].
    + split; [exact H|apply Hk].
Qed.

Lemma set_nth_Forall {A : Type} (Q : A -> Prop) (n : nat) (a : A)
  (l : list A) :
  Q a -> Forall Q l -> Forall Q (set_nth n a l).
Proof.
  intros Ha Hl. revert n. induction Hl as [|x l Hx Hl IH]; intros n.
  - destruct n; constructor.
  - destruct n; cbn; constructor; auto.
Qed.

Lemma step_pool_ok (i : nat) (st : Store * list Task) :
  pool_ok st -> pool_ok (step_pool i st).
Proof.
  intros [Hs Hp]. unfold step_pool.
  destruct (nth_error (snd st) i) as [t|] eqn:E; [|split; assumption].
  assert (Ht : task_safe t).
  { rewrite Forall_forall in Hp. apply Hp. eapply nth_error_In; eauto. }
  destruct (step_task_ok t (fst st) Hs Ht) as [H1 H2].
  destruct (step_task t (fst st)) as [s' t']. cbn [fst snd] in *.
  split; cbn [fst snd]; auto. now apply set_nth_Forall.
Qed.

Lemma run_schedule_ok (schedule : list nat) (st : Store * list Task) :
  pool_ok st -> pool_ok (run_schedule schedule st).
Proof.
  revert st. induction schedule as [|i schedule IH]; intros st H; cbn; auto.
  apply IH. now apply step_pool_ok.
Qed.

(** C5. A request either leaves the store as it is, adds a user, adds a
    donation whose status is available, or turns one available donation
    into a claimed one.  So after any sequence of requests on the empty
    store every donation is available or claimed and none is completed;
    and the same holds when the requests are interleaved at their
    [await]s, whatever the schedule. *)
Theorem completed_unreachable :
  (forall s er, transition s (fst (serve s er))) /\
  (forall reqs,
     Forall (fun d => (status d = "available" \/ status d = "claimed") /\
                      status d <> "completed")
            (donations (serve_all empty_store reqs))) /\
  (forall reqs schedule,
     Forall (fun d => (status d = "available" \/ status d = "claimed") /\
                      status d <> "completed")
            (donations
               (fst (run_schedule schedule
                       (empty_store,
                        map (fun er => start (app (fst er) (snd er))) reqs))))).
Proof.
  assert (Hlive : forall l, Forall live_status l ->
            Forall (fun d => (status d = "available" \/ status d = "claimed") /\
                             status d <> "completed") l).
  { intros l H. eapply Forall_impl; [|exact H].
    intros d Hd. split; [exact Hd|].
    destruct Hd as [-> | ->]; discriminate. }
  split; [exact serve_transition|]. split.
  - intros reqs. apply Hlive.
    apply (serve_all_invariant (fun s => Forall live_status (donations s))).
    + intros; eapply transition_live; eauto.
    + constructor.
  - intros reqs schedule. apply Hlive.
    apply run_schedule_ok. split; cbn [fst snd].
    + constructor.
    + apply Forall_forall. intros t Ht.
      apply in_map_iff in Ht as (er & <- & _). apply app_safe.
Qed.

(** ** Two claims of one donation in flight *)

Lemma claim_race (s : Store) (r1 r2 id : ObjectId) (id1 id2 : string)
  (user1 user2 : User) (d : Donation) :
  findUserById r1 s = Some user1 -> user_userType user1 = "receiver" ->
  findUserById r2 s = Some user2 -> user_userType user2 = "receiver" ->
  castObjectId id1 = Some id -> castObjectId id2 = Some id ->
  findDonationById id s = Some d -> status d = "available" ->
  validateDonation d = true ->
  exists s',
    run_schedule race_schedule
      (s, [start (claimDonation r1 id1); start (claimDonation r2 id2)]) =
    (s', [Finished (mkResponse 200
                      (JObj [("message", JStr "Donation claimed successfully");
                             ("donation", JDonation (claimed d r1 user1))]));
          Finished (mkResponse 200
                      (JObj [("message", JStr "Donation claimed successfully");
                             ("donation", JDonation (claimed d r2 user2))]))]) /\
    findDonationById id s' = Some (claimed d r2 user2).
Proof.
  intros Hu1 Ht1 Hu2 Ht2 Hc1 Hc2 Hd Hs Hv.
  apply String.eqb_eq in Ht1, Ht2, Hs.
  destruct (saveModified_claimed s r1 id user1 d
              (validate_claimed _ _ _ Hv) Hd)
    as (l1 & l2 & Hl & Hl1 & Hid & Hsave).
  exists (mkStore (users s) (l1 ++ claimed d r2 user2 :: l2)).
  split.
  - unfold race_schedule, run_schedule, start.
    cbn [fold_left step_pool nth_error snd fst try_body catch claimDonation
         step_task exec_op set_nth].
    rewrite Hu1, Ht1. cbn [negb step_pool nth_error set_nth step_task exec_op fst snd].
    rewrite Hc1, Hd, Hs. cbn [negb step_pool nth_error set_nth step_task exec_op fst snd].
    rewrite Hu2, Ht2. cbn [negb step_pool nth_error set_nth step_task exec_op fst snd].
    rewrite Hc2, Hd, Hs. cbn [negb step_pool nth_error set_nth step_task exec_op fst snd].
    fold (claimed d r1 user1). fold (claimed d r2 user2).
    rewrite Hsave. cbn [step_pool nth_error set_nth step_task exec_op fst snd].
    unfold saveModified at 1. rewrite (validate_claimed _ r2 user2 Hv).
    cbn [negb donations users].
    rewrite (update_modified_middle (claimed d r2 user2)
               (claimed d r1 user1) l1 l2).
    + reflexivity.
    + intros y Hy. cbn. apply N.eqb_neq. rewrite Hid. auto.
    + cbn. apply N.eqb_refl.
  - unfold findDonationById; cbn [donations]. apply find_middle.
    + intros y Hy. apply N.eqb_neq. auto.
    + cbn. now apply N.eqb_eq.
Qed.

End Interleaved.

(** * Further properties of the handlers *)

Section Store_invariants.

Context {P : Primitives}.

(** ** Properties kept by every awaited operation

    Such a property holds whatever the handlers do and however they are
    interleaved. *)

Lemma run_invariant (Inv : Store -> Prop) :
  (forall X (op : Op X) s, Inv s -> Inv (fst (exec_op op s))) ->
  forall A (p : Prog A) s, Inv s -> Inv (fst (run p s)).
Proof.
  intros Hop A p. induction p as [a|X op k IH]; intros s Hs; cbn [run].
  - exact Hs.
  - specialize (Hop X op s Hs).
    destruct (exec_op op s) as [s' [e|x]]; cbn [fst] in *; auto.
Qed.

Lemma serve_all_op_invariant (Inv : Store -> Prop) :
  (forall X (op : Op X) s, Inv s -> Inv (fst (exec_op op s))) ->
  forall reqs s, Inv s -> Inv (serve_all s reqs).
Proof.
  intros Hop reqs. induction reqs as [|er reqs IH]; intros s Hs; [exact Hs|].
  cbn. apply IH. unfold serve, exec.
  pose proof (run_invariant Inv Hop _ (try_body (app (fst er) (snd er))) s Hs) as H.
  destruct (run _ s) as [s' [e|r]]; exact H.
Qed.

Lemma run_schedule_op_invariant (Inv : Store -> Prop) :
  (forall X (op : Op X) s, Inv s -> Inv (fst (exec_op op s))) ->
  forall schedule st, Inv (fst st) -> Inv (fst (run_schedule schedule st)).
Proof.
  intros Hop schedule.
  induction schedule as [|i schedule IH]; intros st Hs; [exact Hs|].
  cbn. apply IH. unfold step_pool.
  destruct (nth_error (snd st) i) as [t|]; [|exact Hs].
  destruct t as [[r|X op k] c|r]; cbn [step_task]; try exact Hs.
  specialize (Hop X op (fst st) Hs).
  destruct (exec_op op (fst st)) as [s' [e|x]]; exact Hop.
Qed.

(** ** The unique indexes *)

Lemma existsb_false_notin {A B : Type} (f : A -> B) (g : A -> bool)
  (b : B) (l : list A) :
  (forall x, f x = b -> g x = true) ->
  existsb g l = false -> ~ In b (map f l).
Proof.
  intros Hg He Hin. apply in_map_iff in Hin as (x & Hx & Hin).
  assert (existsb g l = true) by (apply existsb_exists; eauto).
  congruence.
Qed.

Lemma NoDup_snoc {A : Type} (a : A) (l : list A) :
  NoDup l -> ~ In a l -> NoDup (l ++ [a]).
Proof.
  intros Hl Ha. apply NoDup_app; auto.
  - constructor; [intros []|constructor].
  - intros x Hx [<-|[]]. auto.
Qed.

Lemma update_modified_ids (doc : Donation) (l l' : list Donation) :
  update_modified doc l = Some l' ->
  map donation_id l' = map donation_id l.
Proof.
  revert l'. induction l as [|x l IH]; cbn; intros l'; [discriminate|].
  destruct (N.eqb _ _).
  - intros [= <-]. reflexivity.
  - destruct (update_modified doc l) as [r|]; [|discriminate].
    intros [= <-]. cbn. now rewrite (IH r).
Qed.

Lemma exec_op_unique (X : Type) (op : Op X) (s : Store) :
  unique_keys s -> unique_keys (fst (exec_op op s)).
Proof.
  intros (Hi & He & Hd).
  destruct op; cbn [exec_op fst]; try op_reads;
    try (repeat split; assumption).
  - unfold insertUser. destruct (negb _); [repeat split; assumption|].
    destruct (existsb _ _) eqn:E; [repeat split; assumption|].
    cbn [fst]. unfold unique_keys; cbn [users donations].
    rewrite !map_app. cbn [map]. repeat split; auto.
    + apply NoDup_snoc; auto.
      eapply existsb_false_notin; [|exact E].
      intros x Hx. cbn. rewrite Hx, N.eqb_refl. reflexivity.
    + apply NoDup_snoc; auto.
      eapply existsb_false_notin; [|exact E].
      intros x Hx. cbn. rewrite Hx, String.eqb_refl. apply orb_true_r.
  - unfold insertDonation. destruct (negb _); [repeat split; assumption|].
    destruct (existsb _ _) eqn:E; [repeat split; assumption|].
    cbn [fst]. unfold unique_keys; cbn [users donations].
    rewrite !map_app. cbn [map]. repeat split; auto.
    apply NoDup_snoc; auto.
    eapply existsb_false_notin; [|exact E].
    intros x Hx. cbn. rewrite Hx. apply N.eqb_refl.
  - unfold saveModified. destruct (negb _); [repeat split; assumption|].
    destruct (update_modified doc (donations s)) as [l|] eqn:E;
      [|repeat split; assumption].
    cbn [fst]. unfold unique_keys; cbn [users donations].
    rewrite (update_modified_ids _ _ _ E). repeat split; assumption.
Qed.

(** ** The schemas *)

Lemma update_modified_valid (doc : Donation) (l l' : list Donation) :
  validateDonation doc = true ->
  forallb validateDonation l = true ->
  update_modified doc l = Some l' ->
  forallb validateDonation l' = true.
Proof.
  intros Hdoc. revert l'. induction l as [|x l IH]; cbn; intros l' Hl;
    [discriminate|].
  apply andb_true_iff in Hl as [Hx Hl].
  destruct (N.eqb _ _).
  - intros [= <-]. cbn. rewrite Hl, andb_true_r.
    revert Hdoc Hx. unfold validateDonation, set_modified; cbn -[nonempty in_enum].
    rewrite !andb_true_iff. intuition.
  - destruct (update_modified doc l) as [r|]; [|discriminate].
    intros [= <-]. cbn. rewrite Hx. cbn. now apply IH.
Qed.

Lemma exec_op_valid (X : Type) (op : Op X) (s : Store) :
  store_valid s = true -> store_valid (fst (exec_op op s)) = true.
Proof.
  intros Hs. pose proof Hs as Hs'. unfold store_valid in Hs'.
  apply andb_true_iff in Hs' as [Hu Hd].
  destruct op; cbn [exec_op fst]; try op_reads; auto.
  - unfold insertUser. destruct (validateUser u) eqn:Hv; cbn [negb]; auto.
    destruct (existsb _ _); auto. cbn [fst]. unfold store_valid; cbn [users donations].
    rewrite forallb_app, Hu, Hd. cbn. now rewrite Hv.
  - unfold insertDonation. destruct (validateDonation d) eqn:Hv; cbn [negb]; auto.
    destruct (existsb _ _); auto. cbn [fst]. unfold store_valid; cbn [users donations].
    rewrite forallb_app, Hu, Hd. cbn. now rewrite Hv.
  - unfold saveModified. destruct (validateDonation doc) eqn:Hv; cbn [negb]; auto.
    destruct (update_modified doc (donations s)) as [l|] eqn:E; auto.
    cbn [fst]. unfold store_valid; cbn [users donations].
    now rewrite Hu, (update_modified_valid _ _ _ Hv Hd E).
Qed.

(** X1. The users have pairwise distinct ids and pairwise distinct
    emails, and the donations pairwise distinct ids, after any sequence of
    requests on the empty store and after any interleaving of any
    requests. *)
Theorem keys_stay_unique :
  (forall reqs, unique_keys (serve_all empty_store reqs)) /\
  (forall reqs schedule,
     unique_keys
       (fst (run_schedule schedule
               (empty_store,
                map (fun er => start (app (fst er) (snd er))) reqs)))).
Proof.
  assert (H0 : unique_keys empty_store) by (repeat split; constructor).
  split.
  - intros reqs. apply serve_all_op_invariant; [apply exec_op_unique|exact H0].
  - intros reqs schedule.
    apply run_schedule_op_invariant; [apply exec_op_unique|exact H0].
Qed.

(** X2. Every stored user and every stored donation passes its schema
    (required paths not empty, [userType] and [status] in their enums)
    after any sequence of requests on the empty store and after any
    interleaving of any requests. *)
Theorem documents_stay_valid :
  (forall reqs,
     Forall (fun u => validateUser u = true)
            (users (serve_all empty_store reqs)) /\
     Forall (fun d => validateDonation d = true)
            (donations (serve_all empty_store reqs))) /\
  (forall reqs schedule,
     let s := fst (run_schedule schedule
                     (empty_store,
                      map (fun er => start (app (fst er) (snd er))) reqs)) in
     Forall (fun u => validateUser u = true) (users s) /\
     Forall (fun d => validateDonation d = true) (donations s)).
Proof.
  assert (Hsplit : forall s, store_valid s = true ->
            Forall (fun u => validateUser u = true) (users s) /\
            Forall (fun d => validateDonation d = true) (donations s)).
  { intros s H. unfold store_valid in H. apply andb_true_iff in H as [Hu Hd].
    split; apply Forall_forall; intros x Hx.
    - rewrite forallb_forall in Hu. auto.
    - rewrite forallb_forall in Hd. auto. }
  split.
  - intros reqs. apply Hsplit.
    apply (serve_all_op_invariant (fun s => store_valid s = true));
      [apply exec_op_valid|reflexivity].
  - intros reqs schedule s. apply Hsplit.
    apply (run_schedule_op_invariant (fun s => store_valid s = true));
      [apply exec_op_valid|reflexivity].
Qed.

End Store_invariants.

Section Requests.

Context {P : Primitives}.

(** ** The handlers that only read *)

Lemma exec_myDonations (s : Store) (userId : ObjectId) :
  exec (myDonations userId) s =
  (s, match findUserById userId s with
      | None => message 404 "User not found"
      | Some user =>
          if negb (user_userType user =? "donor")
          then message 403 "Only donors can view their donations"
          else mkResponse 200
                 (JArr (map JDonation
                          (sort_desc (filter (matches (ByDonor userId))
                                             (donations s)))))
      end).
Proof.
  unfold exec, myDonations; cbn [try_body catch run exec_op].
  destruct (findUserById userId s) as [user|]; [|reflexivity].
  destruct (negb _); reflexivity.
Qed.

Lemma exec_claimedDonations (s : Store) (userId : ObjectId) :
  exec (claimedDonations userId) s =
  (s, match findUserById userId s with
      | None => message 404 "User not found"
      | Some user =>
          if negb (user_userType user =? "receiver")
          then message 403 "Only receivers can view claimed items"
          else mkResponse 200
                 (JArr (map JDonation
                          (sort_desc (filter (matches (ByReceiver userId))
                                             (donations s)))))
      end).
Proof.
  unfold exec, claimedDonations; cbn [try_body catch run exec_op].
  destruct (findUserById userId s) as [user|]; [|reflexivity].
  destruct (negb _); reflexivity.
Qed.

Lemma verifyToken_inl (authorization : option string) (env : Env)
  (r : Response) :
  verifyToken authorization env = inl r ->
  r = message 401 "No token provided" \/ r = message 401 "Invalid token".
Proof.
  unfold verifyToken. destruct (falsy _); [intros [= <-]; now left|].
  destruct (jwt_verify _ _ _); [discriminate|intros [= <-]; now right].
Qed.

(** ** Status codes and failures *)

Ltac status_in := cbn; tauto.

Lemma serve_outcome (s : Store) (env : Env) (req : Request) :
  In (res_status (snd (serve s (env, req)))) (route_statuses req) /\
  ((res_status (snd (serve s (env, req))) >= 400)%Z ->
   fst (serve s (env, req)) = s).
Proof.
  unfold serve; cbn [fst snd].
  assert (Hguard : forall authorization next codes,
            In 401%Z codes ->
            (forall userId,
               In (res_status (snd (exec (next userId) s))) codes /\
               ((res_status (snd (exec (next userId) s)) >= 400)%Z ->
                fst (exec (next userId) s) = s)) ->
            In (res_status (snd (exec (guarded authorization env next) s))) codes /\
            ((res_status (snd (exec (guarded authorization env next) s)) >= 400)%Z ->
             fst (exec (guarded authorization env next) s) = s)).
  { intros authorization next codes H401 Hnext. unfold guarded.
    destruct (verifyToken authorization env) as [r|userId] eqn:E; [|apply Hnext].
    apply verifyToken_inl in E. split; [|reflexivity].
    destruct E as [-> | ->]; exact H401. }
  destruct req; cbn [app route_statuses].
  - unfold exec, health; cbn [try_body].
    destruct (_ =? _)%Z; cbn; tauto.
  - cbn. tauto.
  - rewrite exec_register.
    destruct (_ || _); [status_in|].
    destruct (findUserByEmail _ s); [status_in|].
    destruct (negb (is_string _)); [status_in|].
    cbv zeta. unfold insertUser.
    destruct (negb _); [status_in|].
    destruct (existsb _ _); [status_in|].
    cbn. split; [tauto|lia].
  - rewrite exec_login. cbn [fst snd]. split; [|reflexivity].
    destruct (_ || _); [status_in|].
    destruct (findUserByEmail _ s); [|status_in].
    destruct (negb (is_string _)); [status_in|].
    destruct (negb _); status_in.
  - apply Hguard; [status_in|]. intros userId.
    rewrite exec_createDonation.
    destruct (_ || _); [status_in|].
    destruct (findUserById userId s); [|status_in].
    destruct (negb _); [status_in|].
    cbv zeta. unfold insertDonation.
    destruct (negb _); [status_in|].
    destruct (existsb _ _); [status_in|].
    cbn. split; [tauto|lia].
  - cbn. tauto.
  - apply Hguard; [status_in|]. intros userId.
    rewrite exec_myDonations. cbn [fst snd]. split; [|reflexivity].
    destruct (findUserById userId s); [|status_in].
    destruct (negb _); status_in.
  - apply Hguard; [status_in|]. intros userId.
    rewrite exec_claimDonation.
    destruct (findUserById userId s); [|status_in].
    destruct (negb _); [status_in|].
    destruct (castObjectId id) as [oid|]; [|status_in].
    destruct (findDonationById oid s); [|status_in].
    destruct (negb _); [status_in|].
    unfold saveModified.
    destruct (negb _); [status_in|].
    destruct (update_modified _ _); [|status_in].
    cbn. split; [tauto|lia].
  - apply Hguard; [status_in|]. intros userId.
    rewrite exec_claimedDonations. cbn [fst snd]. split; [|reflexivity].
    destruct (findUserById userId s); [|status_in].
    destruct (negb _); status_in.
  - cbn. tauto.
Qed.


(** X4. A request answered with a status of 400 or more leaves the store
    exactly as it was: no handler writes before it fails. *)
Theorem failure_changes_nothing (s : Store) (env : Env) (req : Request) :
  (res_status (snd (serve s (env, req))) >= 400)%Z ->
  fst (serve s (env, req)) = s.
Proof. apply serve_outcome. Qed.

End Requests.

Section Links.

Context {P : Primitives}.

(** ** What a request has checked when it writes *)

Lemma find_none_existsb {A : Type} (f g : A -> bool) (l : list A) :
  find f l = None -> find g l = None ->
  existsb (fun x => f x || g x) l = false.
Proof.
  intros Hf Hg. induction l as [|a l IH]; cbn in *; [reflexivity|].
  destruct (f a); [discriminate|]. destruct (g a); [discriminate|].
  cbn. auto.
Qed.

Lemma existsb_find_none {A : Type} (f : A -> bool) (l : list A) :
  existsb f l = false -> find f l = None.
Proof.
  induction l as [|a l IH]; cbn; [reflexivity|].
  destruct (f a); [discriminate|]. auto.
Qed.

Lemma existsb_or_false {A : Type} (f g : A -> bool) (l : list A) :
  existsb (fun x => f x || g x) l = false ->
  existsb f l = false /\ existsb g l = false.
Proof.
  induction l as [|a l IH]; cbn; [auto|].
  destruct (f a), (g a); cbn; try discriminate. auto.
Qed.

Lemma register_change (s : Store) (env : Env) (body : Body) :
  change s (fst (exec (register env body) s)).
Proof.
  rewrite exec_register.
  destruct (_ || _); [constructor|].
  destruct (findUserByEmail _ s); [constructor|].
  destruct (negb (is_string _)); [constructor|].
  cbv zeta. unfold insertUser.
  destruct (validateUser _) eqn:Hv; cbn [negb]; [|constructor].
  destruct (existsb _ _) eqn:E; cbn [fst]; [constructor|].
  apply existsb_or_false in E as [E1 E2].
  apply ch_user; auto.
  - unfold findUserById. now apply existsb_find_none.
  - unfold findUserByEmail. now apply existsb_find_none.
Qed.

Lemma createDonation_change (s : Store) (env : Env) (userId : ObjectId)
  (body : Body) :
  change s (fst (exec (createDonation env userId body) s)).
Proof.
  rewrite exec_createDonation.
  destruct (_ || _); [constructor|].
  destruct (findUserById userId s) as [user|] eqn:Hu; [|constructor].
  destruct (user_userType user =? "donor") eqn:Ht; cbn [negb]; [|constructor].
  apply String.eqb_eq in Ht.
  cbv zeta. unfold insertDonation.
  destruct (validateDonation _) eqn:Hv; cbn [negb]; [|constructor].
  destruct (existsb _ _) eqn:E; cbn [fst]; [constructor|].
  eapply ch_donation; eauto.
  unfold findDonationById. now apply existsb_find_none.
Qed.

Lemma claim_change (s : Store) (userId : ObjectId) (id : string) :
  change s (fst (exec (claimDonation userId id) s)).
Proof.
  rewrite exec_claimDonation.
  destruct (findUserById userId s) as [user|] eqn:Hu; [|constructor].
  destruct (user_userType user =? "receiver") eqn:Ht; [|constructor].
  cbn [negb]. apply String.eqb_eq in Ht.
  destruct (castObjectId id) as [oid|]; [|constructor].
  destruct (findDonationById oid s) as [d|] eqn:Hd; [|constructor].
  destruct (status d =? "available") eqn:Hs; [|constructor].
  cbn [negb]. apply String.eqb_eq in Hs.
  destruct (saveModified_cases s d userId oid user Hd)
    as [[e ->]|(l1 & l2 & Hl & Hl1 & ->)]; cbn [fst]; [constructor|].
  now apply ch_claim.
Qed.

Lemma serve_change (s : Store) (er : Env * Request) :
  change s (fst (serve s er)).
Proof.
  destruct er as [env req].
  destruct (read_only req) eqn:R.
  - replace (fst (serve s (env, req))) with s; [constructor|].
    unfold serve; cbn [fst snd].
    destruct req; try discriminate; cbn [app]; try reflexivity.
    + unfold exec, health; cbn [try_body]. now destruct (_ =? _)%Z.
    + now rewrite exec_login.
    + unfold guarded. destruct (verifyToken _ _); [reflexivity|].
      now rewrite exec_myDonations.
    + unfold guarded. destruct (verifyToken _ _); [reflexivity|].
      now rewrite exec_claimedDonations.
  - unfold serve; cbn [fst snd].
    destruct req; try discriminate; cbn [app].
    + apply register_change.
    + unfold guarded. destruct (verifyToken _ _); [constructor|].
      apply createDonation_change.
    + unfold guarded. destruct (verifyToken _ _); [constructor|].
      apply claim_change.
Qed.

(** ** Stamps and users *)

Lemma findUserById_more (s s' : Store) (id : ObjectId) (user : User) :
  (exists l, users s' = users s ++ l) ->
  findUserById id s = Some user -> findUserById id s' = Some user.
Proof.
  intros [l Hl] H. unfold findUserById in *. rewrite Hl.
  now apply find_app_some.
Qed.

Lemma donor_linked_more (s s' : Store) (d : Donation) :
  (exists l, users s' = users s ++ l) ->
  donor_linked s d -> donor_linked s' d.
Proof.
  intros Hl (donor & H1 & H2). exists donor. split; auto.
  eapply findUserById_more; eauto.
Qed.

Lemma receiver_linked_more (s s' : Store) (d : Donation) :
  (exists l, users s' = users s ++ l) ->
  receiver_linked s d -> receiver_linked s' d.
Proof.
  intros Hl [H|(Hs & r & receiver & H1 & H2 & H3)]; [now left|right].
  split; auto. exists r, receiver. repeat split; try tauto.
  eapply findUserById_more; eauto.
Qed.

Lemma linked_more (s s' : Store) (l : list Donation) :
  (exists lu, users s' = users s ++ lu) ->
  Forall (fun d => donor_linked s d /\ receiver_linked s d) l ->
  Forall (fun d => donor_linked s' d /\ receiver_linked s' d) l.
Proof.
  intros Hl H. eapply Forall_impl; [|exact H].
  intros d [H1 H2]. split.
  - eapply donor_linked_more; eauto.
  - eapply receiver_linked_more; eauto.
Qed.

Lemma change_linked (s s' : Store) :
  linked s -> change s s' -> linked s'.
Proof.
  unfold linked. intros H C.
  destruct C as [|u Hv Hi He
                 |d donor Hv Hfresh Hd Ht Hn Hp Hs Hr1 Hr2 Hr3
                 |userId user l1 l2 d Hu Ht Hl Hl1 Hs]; cbn [donations].
  - exact H.
  - apply (linked_more s); [now exists [u]|exact H].
  - apply (linked_more s); [exists []; cbn; now rewrite app_nil_r|].
    apply Forall_app. split; [exact H|].
    constructor; [|constructor]. split.
    + exists donor. auto.
    + left. auto.
  - apply (linked_more s); [exists []; cbn; now rewrite app_nil_r|].
    rewrite Hl in H. apply Forall_app in H as [H1 H2].
    apply Forall_app. split; [exact H1|].
    inversion H2 as [|x l Hx Hrest]; subst.
    constructor; [|exact Hrest]. split.
    + exact (proj1 Hx).
    + right. split; [reflexivity|].
      exists userId, user. repeat split; auto.
Qed.

Lemma serve_all_linked (reqs : list (Env * Request)) :
  linked (serve_all empty_store reqs).
Proof.
  assert (H : forall s, linked s -> linked (serve_all s reqs)).
  { induction reqs as [|er reqs IH]; intros s Hs; [exact Hs|].
    cbn. apply IH. eapply change_linked; [exact Hs|apply serve_change]. }
  apply H. constructor.
Qed.

(** X5. After any sequence of requests on the empty store, every
    donation carries the name and phone of a stored user of type donor
    whose id is its [donorId]; an available donation has no receiver
    fields, and a claimed one carries the id, name and phone of a stored
    user of type receiver.  In particular no donation is claimed by its
    own donor. *)
Theorem stamps_match_users (reqs : list (Env * Request)) :
  let s := serve_all empty_store reqs in
  Forall (fun d =>
            (exists donor,
               findUserById (donorId d) s = Some donor /\
               user_userType donor = "donor" /\
               donorName d = user_name donor /\
               donorPhone d = user_phone donor) /\
            ((status d = "available" /\ receiverId d = None /\
              receiverName d = None /\ receiverPhone d = None) \/
             (status d = "claimed" /\
              exists r receiver,
                receiverId d = Some r /\
                findUserById r s = Some receiver /\
                user_userType receiver = "receiver" /\
                receiverName d = Some (user_name receiver) /\
                receiverPhone d = Some (user_phone receiver))) /\
            receiverId d <> Some (donorId d))
         (donations s).
Proof.
  intros s. pose proof (serve_all_linked reqs) as H. fold s in H.
  eapply Forall_impl; [|exact H].
  intros d [Hd Hr]. split; [exact Hd|]. split; [exact Hr|].
  destruct Hd as (donor & Hfd & Htd & _).
  destruct Hr as [(_ & -> & _)|(_ & r & receiver & -> & Hfr & Htr & _)];
    [discriminate|].
  intros [= ->]. rewrite Hfd in Hfr. injection Hfr as <-.
  rewrite Htd in Htr. discriminate.
Qed.

End Links.

Section Authentication.

Context {P : Primitives}.

Lemma read_only_unchanged (s : Store) (env : Env) (req : Request) :
  read_only req = true -> fst (serve s (env, req)) = s.
Proof.
  intros R. unfold serve; cbn [fst snd].
  destruct req; try discriminate; cbn [app]; try reflexivity.
  - unfold exec, health; cbn [try_body]. now destruct (_ =? _)%Z.
  - now rewrite exec_login.
  - unfold guarded. destruct (verifyToken _ _); [reflexivity|].
    now rewrite exec_myDonations.
  - unfold guarded. destruct (verifyToken _ _); [reflexivity|].
    now rewrite exec_claimedDonations.
Qed.

(** X6. The health check, the statistics, a login, the three listings
    and an unknown route never change the store, whatever they answer;
    so any sequence of such requests leaves it as it was. *)
Theorem reads_change_nothing (s : Store) (reqs : list (Env * Request)) :
  Forall (fun er => read_only (snd er) = true) reqs ->
  serve_all s reqs = s.
Proof.
  intros H. revert s. induction H as [|[env req] reqs Hr _ IH]; intros s.
  - reflexivity.
  - cbn [serve_all fold_left]. cbn [snd] in Hr.
    rewrite (read_only_unchanged s env req Hr). apply IH.
Qed.

(** ** The parts of the Authorization header *)

Lemma split_cons (word rest : string) :
  no_space word = true ->
  split " " (word ++ " " ++ rest)%string = word :: split " " rest.
Proof.
  intros Hw. induction word as [|c w IH].
  - reflexivity.
  - cbn [no_space] in Hw. rewrite andb_true_iff, negb_true_iff in Hw.
    destruct Hw as [Hc Hw].
    change (String c w ++ " " ++ rest)%string
      with (String c (w ++ " " ++ rest))%string.
    cbn [split]. rewrite Hc, (IH Hw). reflexivity.
Qed.

Lemma split_not_nil (s : string) : split " " s <> [].
Proof.
  destruct s as [|c s]; cbn [split]; [discriminate|].
  destruct (Ascii.eqb c " "); [discriminate|].
  destruct (split " " s); discriminate.
Qed.

Lemma verifyToken_second_part (env : Env) (header token : string) :
  nth_error (split " " header) 1 = Some token ->
  verifyToken (Some header) env =
  if token =? ""
  then inl (message 401 "No token provided")
  else match jwt_verify token JWT_SECRET (now env) with
       | Some userId => inr userId
       | None => inl (message 401 "Invalid token")
       end.
Proof.
  intros H. unfold verifyToken. rewrite H. reflexivity.
Qed.

Lemma guarded_rejected (s : Store) (env : Env) (authorization : option string)
  (req : Request) (r : Response) :
  protected authorization req ->
  verifyToken authorization env = inl r ->
  serve s (env, req) = (s, r).
Proof.
  intros Hp Hv. unfold serve; cbn [fst snd].
  destruct req; cbn [protected] in Hp; try contradiction; subst;
    cbn [app]; unfold guarded; now rewrite Hv.
Qed.

Lemma guarded_accepted (s : Store) (env : Env) (authorization : option string)
  (req : Request) (userId : ObjectId) :
  protected authorization req ->
  verifyToken authorization env = inr userId ->
  serve s (env, req) = exec (handler_as env userId req) s.
Proof.
  intros Hp Hv. unfold serve; cbn [fst snd].
  destruct req; cbn [protected] in Hp; try contradiction; subst;
    cbn [app handler_as]; unfold guarded; now rewrite Hv.
Qed.

(** X7. A request to one of the four protected routes is answered 401
    and leaves the store as it was when it has no Authorization header,
    when the header has no second part or an empty one ("No token
    provided"), and when the second part does not verify ("Invalid
    token").  The handler of the route is not run. *)
Theorem protected_routes_reject (s : Store) (env : Env)
  (authorization : option string) (req : Request) :
  protected authorization req ->
  (authorization = None ->
   serve s (env, req) = (s, message 401 "No token provided")) /\
  (forall header, authorization = Some header -> no_space header = true ->
   serve s (env, req) = (s, message 401 "No token provided")) /\
  (forall word rest, authorization = Some (word ++ " " ++ " " ++ rest)%string ->
   no_space word = true ->
   serve s (env, req) = (s, message 401 "No token provided")) /\
  (forall header token, authorization = Some header ->
   nth_error (split " " header) 1 = Some token -> token <> "" ->
   jwt_verify token JWT_SECRET (now env) = None ->
   serve s (env, req) = (s, message 401 "Invalid token")).
Proof.
  intros Hp. repeat split.
  - intros ->. now apply (guarded_rejected s env None).
  - intros header -> Hh. apply (guarded_rejected s env (Some header)); auto.
    unfold verifyToken. now rewrite split_no_space.
  - intros word rest -> Hw.
    apply (guarded_rejected s env (Some (word ++ " " ++ " " ++ rest)%string));
      auto.
    rewrite (verifyToken_second_part env _ "").
    + reflexivity.
    + rewrite split_cons by assumption. reflexivity.
  - intros header token -> Ht Hne Hv.
    apply (guarded_rejected s env (Some header)); auto.
    rewrite (verifyToken_second_part env _ token Ht).
    apply String.eqb_neq in Hne. now rewrite Hne, Hv.
Qed.

(** X8. When the second part of the Authorization header verifies as
    the token of [userId], a protected route answers as its handler run
    for [userId]; the first word and anything after a further space are
    not looked at. *)
Theorem protected_routes_accept (s : Store) (env : Env)
  (word token : string) (userId : ObjectId) (req : Request) :
  no_space word = true -> no_space token = true -> token <> "" ->
  jwt_verify token JWT_SECRET (now env) = Some userId ->
  (protected (Some (word ++ " " ++ token)%string) req ->
   serve s (env, req) = exec (handler_as env userId req) s) /\
  (forall rest,
     protected (Some (word ++ " " ++ token ++ " " ++ rest)%string) req ->
     serve s (env, req) = exec (handler_as env userId req) s).
Proof.
  intros Hw Ht Hne Hv. apply String.eqb_neq in Hne. split.
  - intros Hp. apply (guarded_accepted s env _ req userId Hp).
    rewrite (verifyToken_second_part env _ token).
    + now rewrite Hne, Hv.
    + now rewrite split_word_token.
  - intros rest Hp. apply (guarded_accepted s env _ req userId Hp).
    rewrite (verifyToken_second_part env _ token).
    + now rewrite Hne, Hv.
    + rewrite split_cons by assumption. rewrite split_cons by assumption.
      reflexivity.
Qed.

End Authentication.

Section Accounts.

Context {P : Primitives}.

Lemma string_of_int_nonempty (i : Decimal.int) :
  NilZero.string_of_int i <> "".
Proof.
  destruct i as [d|d]; cbn.
  - destruct d; cbn; discriminate.
  - discriminate.
Qed.

(** A truthy scalar is cast to a non-empty string. *)
Lemma falsy_nonempty (v : option Value) :
  falsy v = false -> nonempty (str v) = true.
Proof.
  destruct v as [[|[|]|n|x]|]; cbn [falsy str negb]; try discriminate.
  - reflexivity.
  - intros _. unfold nonempty. apply negb_true_iff, String.eqb_neq.
    apply string_of_int_nonempty.
  - unfold nonempty. now intros ->.
Qed.

Lemma find_snoc {A : Type} (f : A -> bool) (l : list A) (x : A) :
  find f l = None -> f x = true -> find f (l ++ [x]) = Some x.
Proof.
  intros Hn Hx. apply find_middle; auto.
  intros y Hy. eapply find_none; eauto.
Qed.

Lemma insertUser_fresh (u : User) (s : Store) :
  validateUser u = true ->
  findUserById (user_id u) s = None ->
  findUserByEmail (user_email u) s = None ->
  insertUser u s = (mkStore (users s ++ [u]) (donations s), inr tt).
Proof.
  intros Hv Hi He. unfold insertUser. rewrite Hv. cbn [negb].
  now rewrite (find_none_existsb _ _ _ Hi He).
Qed.

(** X9. Registration checks in this order: a missing or falsy field is
    answered 400 "All fields are required"; an email some user already has
    is answered 400 "User already exists with this email"; a password
    that is not a string makes [bcrypt.hash] throw and is answered 500; a
    userType other than donor and receiver fails the schema at [save] and
    is answered 500.  In each case the store is left as it was.  Otherwise
    the user is added with the digest of the password, is answered 201,
    and is found by its email and by its id. *)
Theorem register_spec (s : Store) (env : Env) (body : Body) :
  let missing :=
    falsy (prop "name" body) || falsy (prop "email" body) ||
    falsy (prop "password" body) || falsy (prop "phone" body) ||
    falsy (prop "userType" body) || falsy (prop "address" body) in
  let email := str (prop "email" body) in
  let userType := str (prop "userType" body) in
  let digest := bcrypt_hash (str (prop "password" body)) (salt env) in
  let user :=
    mkUser (new_id env) (str (prop "name" body)) email digest
           (str (prop "phone" body)) userType (str (prop "address" body))
           (now env) in
  (missing = true ->
   exec (register env body) s = (s, message 400 "All fields are required")) /\
  (forall u, missing = false -> findUserByEmail email s = Some u ->
   exec (register env body) s =
     (s, message 400 "User already exists with this email")) /\
  (missing = false -> findUserByEmail email s = None ->
   is_string (prop "password" body) = false ->
   exec (register env body) s =
     (s, server_error "Server error during registration" IllegalArguments)) /\
  (missing = false -> findUserByEmail email s = None ->
   is_string (prop "password" body) = true ->
   userType <> "donor" -> userType <> "receiver" ->
   exec (register env body) s =
     (s, server_error "Server error during registration" ValidationError)) /\
  (missing = false -> findUserByEmail email s = None ->
   is_string (prop "password" body) = true ->
   userType = "donor" \/ userType = "receiver" ->
   digest <> "" ->
   findUserById (new_id env) s = None ->
   exec (register env body) s =
     (mkStore (users s ++ [user]) (donations s),
      mkResponse 201
        (JObj [("message", JStr "User registered successfully");
               ("user", JObj [("id", JId (new_id env));
                              ("name", JStr (str (prop "name" body)));
                              ("email", JStr email);
                              ("userType", JStr userType)])])) /\
   findUserByEmail email (mkStore (users s ++ [user]) (donations s)) = Some user /\
   findUserById (new_id env) (mkStore (users s ++ [user]) (donations s)) =
     Some user).
Proof.
  intros missing email userType digest user.
  rewrite exec_register. fold missing email userType digest. cbv zeta.
  fold user. split; [|split; [|split; [|split]]].
  - intros ->. reflexivity.
  - intros u -> ->. reflexivity.
  - intros -> -> ->. reflexivity.
  - intros -> -> -> Hd Hr. cbn [negb]. unfold insertUser.
    replace (validateUser user) with false; [reflexivity|].
    symmetry. unfold validateUser, user; cbn -[nonempty in_enum].
    apply String.eqb_neq in Hd, Hr.
    unfold in_enum, userType_enum; cbn [existsb]. rewrite Hd, Hr. cbn.
    now rewrite andb_false_r.
  - intros Hm He Hstr Ht Hdig Hid. split; [|split].
    + rewrite Hm, He, Hstr. cbn [negb]. rewrite insertUser_fresh; auto.
      unfold missing in Hm. rewrite !orb_false_iff in Hm.
      destruct Hm as (((((H1 & H2) & H3) & H4) & H5) & H6).
      unfold validateUser, user; cbn -[nonempty in_enum].
      unfold email, userType, digest in *.
      rewrite !falsy_nonempty by assumption.
      apply String.eqb_neq in Hdig.
      unfold nonempty at 1. rewrite Hdig. cbn.
      destruct Ht as [-> | ->]; reflexivity.
    + unfold findUserByEmail; cbn [users].
      apply find_snoc; [exact He|]. cbn. apply String.eqb_refl.
    + unfold findUserById; cbn [users].
      apply find_snoc; [exact Hid|]. cbn. apply N.eqb_refl.
Qed.

Lemma transition_users_more (s s' : Store) :
  transition s s' -> exists l, users s' = users s ++ l.
Proof.
  intros T. apply (transition_frame _ _ T).
Qed.

Lemma serve_all_keeps_email (s : Store) (reqs : list (Env * Request))
  (email : string) (user : User) :
  findUserByEmail email s = Some user ->
  findUserByEmail email (serve_all s reqs) = Some user.
Proof.
  apply (serve_all_invariant (fun x => findUserByEmail email x = Some user)).
  intros a b Ha T. destruct (transition_users_more _ _ T) as [l Hl].
  unfold findUserByEmail in *. rewrite Hl. now apply find_app_some.
Qed.

(** X10. After a registration answered 201, and whatever requests are
    served in between, a login with the same email and password is
    answered 200 with a token signed for the id given at registration and
    with the registered name, email, userType, phone and address,
    provided [bcrypt.compare] accepts the password against its own
    digest. *)
Theorem register_then_login (s s1 : Store) (env env' : Env)
  (body body' : Body) (resp : Response) (reqs : list (Env * Request)) :
  exec (register env body) s = (s1, resp) ->
  res_status resp = 201%Z ->
  prop "email" body' = prop "email" body ->
  prop "password" body' = prop "password" body ->
  bcrypt_compare (str (prop "password" body))
    (bcrypt_hash (str (prop "password" body)) (salt env)) = true ->
  let s2 := serve_all s1 reqs in
  exec (login env' body') s2 =
    (s2, mkResponse 200
           (JObj [("token", JStr (jwt_sign (new_id env) JWT_SECRET (now env')));
                  ("user", JObj [("id", JId (new_id env));
                                 ("name", JStr (str (prop "name" body)));
                                 ("email", JStr (str (prop "email" body)));
                                 ("userType", JStr (str (prop "userType" body)));
                                 ("phone", JStr (str (prop "phone" body)));
                                 ("address", JStr (str (prop "address" body)))])])).
Proof.
  intros He Hok Hem Hpw Hcmp s2.
  rewrite exec_register in He.
  destruct (_ || _) eqn:Hm; [injection He as <- <-; discriminate|].
  destruct (findUserByEmail _ s) eqn:Hf; [injection He as <- <-; discriminate|].
  destruct (is_string (prop "password" body)) eqn:Hstr; cbn [negb] in He;
    [|injection He as <- <-; discriminate].
  cbv zeta in He. unfold insertUser in He.
  destruct (negb _); [injection He as <- <-; discriminate|].
  destruct (existsb _ _); [injection He as <- <-; discriminate|].
  injection He as <- _.
  rewrite !orb_false_iff in Hm.
  destruct Hm as (((((H1 & H2) & H3) & H4) & H5) & H6).
  rewrite exec_login, Hem, Hpw, H2, H3, Hstr. cbn [orb negb].
  subst s2.
  rewrite (serve_all_keeps_email _ reqs (str (prop "email" body))
             (mkUser (new_id env) (str (prop "name" body))
                (str (prop "email" body))
                (bcrypt_hash (str (prop "password" body)) (salt env))
                (str (prop "phone" body)) (str (prop "userType" body))
                (str (prop "address" body)) (now env))).
  - cbn [user_password user_id user_name user_email user_userType
         user_phone user_address]. now rewrite Hcmp.
  - unfold findUserByEmail; cbn [users].
    apply find_snoc; [exact Hf|]. cbn. apply String.eqb_refl.
Qed.

(** X11. A donor who sends the five required fields gets 201: the
    donation is stored with status available, the name and phone of the
    donor, no receiver, the id and the time of the request; it is found by
    its id and it is in the list of available donations.  The donor's
    stored name and phone are taken to be non-empty and the id to be
    new. *)
Theorem createDonation_success (s : Store) (env : Env) (userId : ObjectId)
  (body : Body) (user : User) :
  falsy (prop "foodName" body) = false ->
  falsy (prop "quantity" body) = false ->
  falsy (prop "category" body) = false ->
  falsy (prop "pickupAddress" body) = false ->
  falsy (prop "expiryTime" body) = false ->
  findUserById userId s = Some user ->
  user_userType user = "donor" ->
  user_name user <> "" -> user_phone user <> "" ->
  findDonationById (new_id env) s = None ->
  let d :=
    mkDonation (new_id env) userId (user_name user) (user_phone user)
               (str (prop "foodName" body)) (str (prop "quantity" body))
               (str (prop "category" body)) (optional (prop "description" body))
               (str (prop "pickupAddress" body)) (str (prop "expiryTime" body))
               "available" None None None (now env) in
  let s' := mkStore (users s) (donations s ++ [d]) in
  exec (createDonation env userId body) s =
    (s', mkResponse 201
           (JObj [("message", JStr "Donation created successfully");
                  ("donation", JDonation d)])) /\
  findDonationById (new_id env) s' = Some d /\
  exists l,
    exec listAvailable s' = (s', mkResponse 200 (JArr (map JDonation l))) /\
    In d l.
Proof.
  intros F1 F2 F3 F4 F5 Hu Ht Hn Hp Hfresh d s'.
  split; [|split].
  - rewrite exec_createDonation, F1, F2, F3, F4, F5, Hu. cbn [orb].
    apply String.eqb_eq in Ht. rewrite Ht. cbn [negb]. cbv zeta. fold d.
    unfold insertDonation.
    replace (validateDonation d) with true.
    + cbn [negb].
      replace (existsb _ (donations s)) with false; [reflexivity|].
      symmetry. unfold findDonationById in Hfresh.
      clear - Hfresh. induction (donations s) as [|a l IH]; cbn in *;
        [reflexivity|].
      destruct (N.eqb (donation_id a) (new_id env)); [discriminate|]. auto.
    + symmetry. unfold validateDonation, d; cbn -[nonempty in_enum].
      rewrite !falsy_nonempty by assumption.
      apply String.eqb_neq in Hn, Hp. unfold nonempty. rewrite Hn, Hp.
      reflexivity.
  - unfold findDonationById, s'; cbn [donations].
    apply find_snoc; [exact Hfresh|]. cbn. apply N.eqb_refl.
  - eexists. split; [reflexivity|].
    apply (Permutation_in _ (Permutation_sym (sort_desc_perm _))).
    apply filter_In. split; [|reflexivity].
    unfold s'; cbn [donations]. apply in_or_app. right. now left.
Qed.

End Accounts.

Section Listings.

Context {P : Primitives}.

(** ** What [find(filter).sort({ createdAt: -1 })] returns *)

Lemma find_sorted (q : DonationFilter) (s : Store) :
  let l := sort_desc (filter (matches q) (donations s)) in
  Permutation l (filter (matches q) (donations s)) /\
  StronglySorted (fun a b => (createdAt b <= createdAt a)%Z) l /\
  forall d, In d l <-> In d (donations s) /\ matches q d = true.
Proof.
  intros l. assert (Hp := sort_desc_perm (filter (matches q) (donations s))).
  split; [exact Hp|]. split; [apply sort_desc_sorted|].
  intros d. rewrite <- filter_In. split.
  - apply (Permutation_in _ Hp).
  - apply (Permutation_in _ (Permutation_sym Hp)).
Qed.

(** X12. The list of a caller's own donations: 404 when the caller is
    not a user, 403 when the caller is not a donor; otherwise 200 with
    exactly the stored donations whose [donorId] is the caller, the newest
    first.  The store is never changed. *)
Theorem myDonations_spec (s : Store) (userId : ObjectId) :
  (findUserById userId s = None ->
   exec (myDonations userId) s = (s, message 404 "User not found")) /\
  (forall user, findUserById userId s = Some user ->
     user_userType user <> "donor" ->
     exec (myDonations userId) s =
       (s, message 403 "Only donors can view their donations")) /\
  (forall user, findUserById userId s = Some user ->
     user_userType user = "donor" ->
     exists l,
       exec (myDonations userId) s =
         (s, mkResponse 200 (JArr (map JDonation l))) /\
       StronglySorted (fun a b => (createdAt b <= createdAt a)%Z) l /\
       Permutation l (filter (fun d => N.eqb (donorId d) userId) (donations s)) /\
       forall d, In d l <-> In d (donations s) /\ donorId d = userId).
Proof.
  rewrite exec_myDonations. split; [|split].
  - intros ->. reflexivity.
  - intros user -> Ht. apply eqb_false_neq in Ht. now rewrite Ht.
  - intros user -> Ht. apply String.eqb_eq in Ht. rewrite Ht. cbn [negb].
    destruct (find_sorted (ByDonor userId) s) as (Hp & Hs & Hin).
    eexists. split; [reflexivity|]. split; [exact Hs|]. split; [exact Hp|].
    intros d. rewrite Hin. cbn [matches]. now rewrite N.eqb_eq.
Qed.

(** X13. The list of a caller's claims: 404 when the caller is not a
    user, 403 when the caller is not a receiver; otherwise 200 with
    exactly the stored donations whose [receiverId] is the caller, each
    as often as it is stored, the newest first.  The store is never
    changed. *)
Theorem claimedDonations_spec (s : Store) (userId : ObjectId) :
  (findUserById userId s = None ->
   exec (claimedDonations userId) s = (s, message 404 "User not found")) /\
  (forall user, findUserById userId s = Some user ->
     user_userType user <> "receiver" ->
     exec (claimedDonations userId) s =
       (s, message 403 "Only receivers can view claimed items")) /\
  (forall user, findUserById userId s = Some user ->
     user_userType user = "receiver" ->
     exists l,
       exec (claimedDonations userId) s =
         (s, mkResponse 200 (JArr (map JDonation l))) /\
       StronglySorted (fun a b => (createdAt b <= createdAt a)%Z) l /\
       Permutation l
         (filter (fun d => match receiverId d with
                           | Some r => N.eqb r userId
                           | None => false
                           end) (donations s)) /\
       forall d, In d l <-> In d (donations s) /\ receiverId d = Some userId).
Proof.
  rewrite exec_claimedDonations. split; [|split].
  - intros ->. reflexivity.
  - intros user -> Ht. apply eqb_false_neq in Ht. now rewrite Ht.
  - intros user -> Ht. apply String.eqb_eq in Ht. rewrite Ht. cbn [negb].
    destruct (find_sorted (ByReceiver userId) s) as (Hp & Hs & Hin).
    eexists. split; [reflexivity|]. split; [exact Hs|]. split; [exact Hp|].
    intros d. rewrite Hin. cbn [matches].
    destruct (receiverId d) as [r|].
    + rewrite N.eqb_eq. split; intros [H1 H2]; split; congruence.
    + split; intros [H1 H2]; discriminate.
Qed.

(** X14. After a claim answered 200, the claimed donation is in the
    caller's list of claims, and no donation with the id that was claimed
    is in the list of available donations any more (the ids of the stored
    donations being distinct). *)
Theorem claim_then_lists (s s' : Store) (userId : ObjectId) (id : string)
  (resp : Response) :
  exec (claimDonation userId id) s = (s', resp) ->
  res_status resp = 200%Z ->
  NoDup (map donation_id (donations s)) ->
  exists d' mine available,
    get "donation" (res_body resp) = Some (JDonation d') /\
    exec (claimedDonations userId) s' =
      (s', mkResponse 200 (JArr (map JDonation mine))) /\
    In d' mine /\
    exec listAvailable s' =
      (s', mkResponse 200 (JArr (map JDonation available))) /\
    forall x, In x available -> castObjectId id <> Some (donation_id x).
Proof.
  intros He Hok Hnd.
  destruct (claim_success_inv _ _ _ _ _ He Hok)
    as (user & d & l1 & l2 & Hu & Ht & _ & _ & Hl & Hl1 & Hid & -> & ->).
  exists (claimed d userId user).
  exists (sort_desc (filter (matches (ByReceiver userId))
                            (l1 ++ claimed d userId user :: l2))).
  exists (sort_desc (filter (matches (ByStatus "available"))
                            (l1 ++ claimed d userId user :: l2))).
  split; [reflexivity|]. split; [|split; [|split]].
  - rewrite exec_claimedDonations.
    replace (findUserById userId _) with (Some user) by (symmetry; exact Hu).
    apply String.eqb_eq in Ht. rewrite Ht. reflexivity.
  - apply (Permutation_in _ (Permutation_sym (sort_desc_perm _))).
    apply filter_In. split.
    + apply in_or_app. right. now left.
    + cbn. apply N.eqb_refl.
  - reflexivity.
  - intros x Hx Hxid. rewrite Hid in Hxid. injection Hxid as Hxid.
    apply (Permutation_in _ (sort_desc_perm _)) in Hx.
    apply filter_In in Hx as [Hx Hav]. cbn [matches] in Hav.
    apply String.eqb_eq in Hav.
    rewrite Hl, map_app in Hnd. cbn [map] in Hnd.
    apply NoDup_remove_2 in Hnd.
    apply in_app_or in Hx as [Hx|[<-|Hx]].
    + apply (Hl1 x Hx). congruence.
    + discriminate Hav.
    + apply Hnd. apply in_or_app. right.
      apply in_map_iff. exists x. split; [congruence|exact Hx].
Qed.

End Listings.

Section Statistics.

Context {P : Primitives}.

Lemma count_by_status (l : list Donation) :
  Forall live_status l ->
  length (filter (matches (ByStatus "available")) l) +
  length (filter (matches (ByStatus "claimed")) l) = length l.
Proof.
  induction 1 as [|d l Hd _ IH]; [reflexivity|].
  cbn [filter matches length].
  destruct Hd as [Hd|Hd]; rewrite Hd; cbn; lia.
Qed.

Lemma count_by_userType (l : list User) :
  forallb validateUser l = true ->
  length (filter (matches_user (ByUserType "donor")) l) +
  length (filter (matches_user (ByUserType "receiver")) l) = length l.
Proof.
  induction l as [|u l IH]; [reflexivity|].
  cbn [forallb]. rewrite andb_true_iff. intros [Hu Hl].
  specialize (IH Hl). cbn [filter matches_user length].
  unfold validateUser in Hu. rewrite !andb_true_iff in Hu.
  destruct Hu as [[_ He] _]. unfold in_enum, userType_enum in He.
  cbn [existsb] in He. rewrite orb_false_r in He.
  apply orb_true_iff in He as [He|He]; apply String.eqb_eq in He;
    rewrite He; cbn; lia.
Qed.

Lemma StronglySorted_app_inv {A : Type} (R : A -> A -> Prop)
  (l1 l2 : list A) :
  StronglySorted R (l1 ++ l2) ->
  forall a b, In a l1 -> In b l2 -> R a b.
Proof.
  induction l1 as [|x l1 IH]; cbn; intros H a b Ha Hb; [contradiction|].
  apply StronglySorted_inv in H as [H1 H2].
  destruct Ha as [<-|Ha].
  - rewrite Forall_forall in H2. apply H2. apply in_or_app. now right.
  - eapply IH; eauto.
Qed.

Lemma StronglySorted_firstn {A : Type} (R : A -> A -> Prop) (n : nat)
  (l : list A) :
  StronglySorted R l -> StronglySorted R (firstn n l).
Proof.
  intros H. revert n. induction H as [|x l Hl IH Hx]; intros n.
  - rewrite firstn_nil. constructor.
  - destruct n; cbn; constructor; auto.
    apply Forall_forall. intros y Hy. rewrite Forall_forall in Hx.
    apply Hx. eapply (In_nth_error) in Hy as [k Hk].
    clear - Hk. revert l k Hk. induction n; intros l k Hk.
    + destruct k; discriminate.
    + destruct l as [|z l]; [destruct k; discriminate|].
      destruct k; cbn in Hk.
      * injection Hk as <-. now left.
      * right. eapply IHn; eauto.
Qed.

(** X15. In every store reached from the empty one by a sequence of
    requests, the statistics are answered 200 and are consistent:
    totalDonations and totalUsers are the sizes of the two collections,
    activeDonations + claimedDonations = totalDonations, donors +
    receivers = totalUsers, and recentActivity describes the
    min(5, totalDonations) newest donations, newest first: no donation
    left out is newer than a listed one. *)
Theorem stats_consistent (reqs : list (Env * Request)) :
  let s := serve_all empty_store reqs in
  exists active inactive ndonors nreceivers recent,
    exec stats s =
      (s, mkResponse 200
            (JObj [("totalDonations", JNum (length (donations s)));
                   ("activeDonations", JNum active);
                   ("claimedDonations", JNum inactive);
                   ("totalUsers", JNum (length (users s)));
                   ("donors", JNum ndonors);
                   ("receivers", JNum nreceivers);
                   ("recentActivity", JArr (map recentActivity recent))])) /\
    active + inactive = length (donations s) /\
    ndonors + nreceivers = length (users s) /\
    length recent = Nat.min 5 (length (donations s)) /\
    StronglySorted (fun a b => (createdAt b <= createdAt a)%Z) recent /\
    (forall d, In d recent -> In d (donations s)) /\
    (forall d d', In d recent -> In d' (donations s) -> ~ In d' recent ->
       (createdAt d' <= createdAt d)%Z).
Proof.
  intros s.
  assert (Hlive : Forall live_status (donations s)).
  { apply (serve_all_invariant (fun x => Forall live_status (donations x))).
    - intros; eapply transition_live; eauto.
    - constructor. }
  assert (Hvalid : store_valid s = true) by (apply serve_all_valid; reflexivity).
  unfold store_valid in Hvalid. apply andb_true_iff in Hvalid as [Hu _].
  destruct (find_sorted AllDonations s) as (Hp & Hs & Hin).
  assert (Hall : filter (matches AllDonations) (donations s) = donations s).
  { clear. induction (donations s) as [|d l IH]; cbn; [reflexivity|].
    now rewrite IH. }
  assert (Hallu : filter (matches_user AllUsers) (users s) = users s).
  { clear. induction (users s) as [|u l IH]; cbn; [reflexivity|].
    now rewrite IH. }
  rewrite Hall in Hp, Hs. clear Hin.
  set (sorted := sort_desc (donations s)) in *.
  do 4 eexists. exists (firstn 5 sorted).
  split; [|split; [|split; [|split; [|split; [|split]]]]].
  - unfold exec, stats; cbn [try_body catch run exec_op limit_to].
    rewrite Hall, Hallu. fold sorted. reflexivity.
  - apply count_by_status. exact Hlive.
  - apply count_by_userType. exact Hu.
  - rewrite length_firstn, (Permutation_length Hp). reflexivity.
  - apply StronglySorted_firstn. exact Hs.
  - intros d Hd. apply (Permutation_in _ Hp).
    rewrite <- (firstn_skipn 5 sorted). apply in_or_app. now left.
  - intros d d' Hd Hd' Hnot.
    apply (Permutation_in _ (Permutation_sym Hp)) in Hd'.
    rewrite <- (firstn_skipn 5 sorted) in Hd', Hs.
    apply in_app_or in Hd' as [Hd'|Hd']; [contradiction|].
    exact (StronglySorted_app_inv _ _ _ Hs d d' Hd Hd').
Qed.

End Statistics.

Section Duplicates.

Context {P : Primitives}.

(** X16. Once a registration has been answered 201, every later
    registration with the same email, whatever its other fields and
    whatever was served in between, is answered 400 "User already exists
    with this email" and changes nothing. *)
Theorem register_twice (s s1 : Store) (env env' : Env) (body body' : Body)
  (resp : Response) (reqs : list (Env * Request)) :
  exec (register env body) s = (s1, resp) ->
  res_status resp = 201%Z ->
  prop "email" body' = prop "email" body ->
  falsy (prop "name" body') = false ->
  falsy (prop "password" body') = false ->
  falsy (prop "phone" body') = false ->
  falsy (prop "userType" body') = false ->
  falsy (prop "address" body') = false ->
  let s2 := serve_all s1 reqs in
  exec (register env' body') s2 =
    (s2, message 400 "User already exists with this email").
Proof.
  intros He Hok Hem F1 F3 F4 F5 F6 s2.
  rewrite exec_register in He.
  destruct (_ || _) eqn:Hm; [injection He as <- <-; discriminate|].
  destruct (findUserByEmail _ s) eqn:Hf; [injection He as <- <-; discriminate|].
  destruct (is_string (prop "password" body)) eqn:Hstr; cbn [negb] in He;
    [|injection He as <- <-; discriminate].
  cbv zeta in He. unfold insertUser in He.
  destruct (negb _); [injection He as <- <-; discriminate|].
  destruct (existsb _ _); [injection He as <- <-; discriminate|].
  injection He as <- _.
  rewrite !orb_false_iff in Hm.
  destruct Hm as (((((H1 & H2) & H3) & H4) & H5) & H6).
  rewrite exec_register, Hem, F1, H2, F3, F4, F5, F6. cbn [orb].
  subst s2.
  erewrite serve_all_keeps_email; [reflexivity|].
  unfold findUserByEmail; cbn [users].
  apply find_snoc; [exact Hf|]. cbn. apply String.eqb_refl.
Qed.

Lemma is_string_inv (v : option Value) :
  is_string v = true -> exists p, v = Some (VStr p).
Proof.
  destruct v as [[| | |p]|]; try discriminate. intros _. now exists p.
Qed.

(** X17. Two registrations with the same new email in flight, taking
    turns, each with a string password: both pass the handler's own
    check, the first [save] adds the user and is answered 201, and the
    second [save] is refused by the unique index and answered 500; one
    user is added, not two. *)
Theorem register_race (s : Store) (env1 env2 : Env) (body1 body2 : Body)
  (u1 u2 : User) :
  u1 = mkUser (new_id env1) (str (prop "name" body1))
         (str (prop "email" body1))
         (bcrypt_hash (str (prop "password" body1)) (salt env1))
         (str (prop "phone" body1)) (str (prop "userType" body1))
         (str (prop "address" body1)) (now env1) ->
  u2 = mkUser (new_id env2) (str (prop "name" body2))
         (str (prop "email" body2))
         (bcrypt_hash (str (prop "password" body2)) (salt env2))
         (str (prop "phone" body2)) (str (prop "userType" body2))
         (str (prop "address" body2)) (now env2) ->
  falsy (prop "name" body1) || falsy (prop "email" body1) ||
  falsy (prop "password" body1) || falsy (prop "phone" body1) ||
  falsy (prop "userType" body1) || falsy (prop "address" body1) = false ->
  falsy (prop "name" body2) || falsy (prop "email" body2) ||
  falsy (prop "password" body2) || falsy (prop "phone" body2) ||
  falsy (prop "userType" body2) || falsy (prop "address" body2) = false ->
  is_string (prop "password" body1) = true ->
  is_string (prop "password" body2) = true ->
  user_email u2 = user_email u1 ->
  validateUser u1 = true -> validateUser u2 = true ->
  findUserByEmail (user_email u1) s = None ->
  findUserById (user_id u1) s = None ->
  run_schedule alternate_schedule
    (s, [start (register env1 body1); start (register env2 body2)]) =
  (mkStore (users s ++ [u1]) (donations s),
   [Finished (mkResponse 201
                (JObj [("message", JStr "User registered successfully");
                       ("user", JObj [("id", JId (user_id u1));
                                      ("name", JStr (user_name u1));
                                      ("email", JStr (user_email u1));
                                      ("userType", JStr (user_userType u1))])]));
    Finished (server_error "Server error during registration" DuplicateKey)]).
Proof.
  intros -> -> M1 M2 S1 S2 Hem V1 V2 He Hi. cbn [user_email user_id] in *.
  assert (He2 : findUserByEmail (str (prop "email" body2)) s = None)
    by (rewrite Hem; exact He).
  destruct (is_string_inv _ S1) as [p1 Pw1].
  destruct (is_string_inv _ S2) as [p2 Pw2].
  unfold alternate_schedule, run_schedule, start, register.
  cbn [try_body catch]. rewrite M1, M2.
  cbn [fold_left step_pool nth_error set_nth step_task exec_op fst snd].
  rewrite He, He2.
  cbn [step_pool nth_error set_nth step_task exec_op fst snd].
  rewrite Pw1, Pw2 in *. cbn [str] in *.
  cbn [step_pool nth_error set_nth step_task exec_op fst snd].
  rewrite insertUser_fresh by assumption.
  cbn [step_pool nth_error set_nth step_task exec_op fst snd].
  unfold insertUser at 1. rewrite V2. cbn [negb users user_id user_email].
  rewrite existsb_app. cbn [existsb user_id user_email].
  rewrite Hem, String.eqb_refl, !orb_true_r.
  reflexivity.
Qed.

End Duplicates.

Section Interleaved_frame.

Context {P : Primitives}.

Lemma update_modified_fixed (doc : Donation) (l l' : list Donation) :
  update_modified doc l = Some l' ->
  map fixed_paths l' = map fixed_paths l.
Proof.
  revert l'. induction l as [|x l IH]; cbn; intros l'; [discriminate|].
  destruct (N.eqb _ _).
  - intros [= <-]. reflexivity.
  - destruct (update_modified doc l) as [r|]; [|discriminate].
    intros [= <-]. cbn. now rewrite (IH r).
Qed.

Lemma exec_op_frame (X : Type) (op : Op X) (s : Store) :
  (exists l, users (fst (exec_op op s)) = users s ++ l) /\
  (exists l, map fixed_paths (donations (fst (exec_op op s))) =
             map fixed_paths (donations s) ++ l).
Proof.
  assert (Hsame : (exists l, users s = users s ++ l) /\
                  (exists l, map fixed_paths (donations s) =
                             map fixed_paths (donations s) ++ l))
    by (split; exists []; now rewrite app_nil_r).
  destruct op; cbn [exec_op fst]; try op_reads; try exact Hsame.
  - unfold insertUser. destruct (negb _); [exact Hsame|].
    destruct (existsb _ _); [exact Hsame|]. cbn.
    split; [now exists [u]|exists []; now rewrite app_nil_r].
  - unfold insertDonation. destruct (negb _); [exact Hsame|].
    destruct (existsb _ _); [exact Hsame|]. cbn.
    split; [exists []; now rewrite app_nil_r|].
    exists [fixed_paths d]. now rewrite map_app.
  - unfold saveModified. destruct (negb _); [exact Hsame|].
    destruct (update_modified doc (donations s)) as [l|] eqn:E;
      [|exact Hsame].
    cbn. split; exists []; rewrite app_nil_r; [reflexivity|].
    eapply update_modified_fixed; eauto.
Qed.

(** X18. However requests are interleaved, stored users are never
    changed or removed, and the id, the donor stamp, the food attributes
    and the creation time of a stored donation are never changed: both
    collections only grow at the end. *)
Theorem interleaving_frame (s : Store) (reqs : list (Env * Request))
  (schedule : list nat) :
  let s' := fst (run_schedule schedule
                   (s, map (fun er => start (app (fst er) (snd er))) reqs)) in
  (exists l, users s' = users s ++ l) /\
  (exists l, map fixed_paths (donations s') =
             map fixed_paths (donations s) ++ l).
Proof.
  intros s'. subst s'.
  apply (run_schedule_op_invariant
           (fun x => (exists l, users x = users s ++ l) /\
                     (exists l, map fixed_paths (donations x) =
                                map fixed_paths (donations s) ++ l))).
  - intros X op a [[lu Hu] [ld Hd]].
    destruct (exec_op_frame X op a) as [[lu' Hu'] [ld' Hd']]. split.
    + exists (lu ++ lu'). now rewrite Hu', Hu, app_assoc.
    + exists (ld ++ ld'). now rewrite Hd', Hd, app_assoc.
  - cbn [fst]. split; exists []; now rewrite app_nil_r.
Qed.

(** ** A claimed donation under interleaving *)

Lemma update_modified_find (doc : Donation) (id : ObjectId)
  (l l' : list Donation) :
  update_modified doc l = Some l' ->
  find (fun d => N.eqb (donation_id d) id) l' =
  match find (fun d => N.eqb (donation_id d) id) l with
  | Some x =>
      if N.eqb (donation_id doc) id then Some (set_modified doc x) else Some x
  | None => None
  end.
Proof.
  revert l'. induction l as [|x l IH]; cbn [update_modified]; intros l';
    [discriminate|].
  destruct (N.eqb (donation_id x) (donation_id doc)) eqn:E.
  - intros [= <-]. cbn [find set_modified donation_id].
    apply N.eqb_eq in E. rewrite <- E.
    destruct (N.eqb (donation_id x) id); [reflexivity|].
    destruct (find _ l); reflexivity.
  - destruct (update_modified doc l) as [r|]; [|discriminate].
    intros [= <-]. cbn [find].
    destruct (N.eqb (donation_id x) id) eqn:E2.
    + apply N.eqb_eq in E2. subst id. rewrite N.eqb_sym, E. reflexivity.
    + now apply IH.
Qed.

Lemma exec_op_claimed_at (X : Type) (op : Op X) (id : ObjectId) (s : Store) :
  op_ok op -> claimed_at id s -> claimed_at id (fst (exec_op op s)).
Proof.
  intros Hop (d & Hf & Hs).
  destruct op; cbn [exec_op fst]; try op_reads;
    try (exists d; split; assumption).
  - unfold insertUser. destruct (negb _); [exists d; auto|].
    destruct (existsb _ _); exists d; auto.
  - unfold insertDonation. destruct (negb _); [exists d; auto|].
    destruct (existsb _ _); [exists d; auto|].
    exists d. split; auto. unfold findDonationById in *; cbn.
    now apply find_app_some.
  - unfold saveModified. destruct (negb _); [exists d; auto|].
    destruct (update_modified doc (donations s)) as [l|] eqn:E;
      [|exists d; auto].
    cbn [fst]. unfold claimed_at, findDonationById in *; cbn [donations].
    rewrite (update_modified_find doc id _ _ E), Hf.
    destruct (N.eqb (donation_id doc) id).
    + eexists. split; [reflexivity|]. exact Hop.
    + exists d. auto.
Qed.

Lemma step_task_safe (t : Task) (s : Store) :
  task_safe t -> task_safe (snd (step_task t s)).
Proof.
  intros Ht. destruct t as [[r|X op k] c|r]; cbn [step_task snd]; auto.
  - exact I.
  - apply safe_Await_inv in Ht as [_ Hk].
    destruct (exec_op op s) as [s' [e|x]]; cbn [snd]; [exact I|apply Hk].
Qed.

Lemma step_task_safe_invariant (Inv : Store -> Prop) (t : Task) (s : Store) :
  (forall X (op : Op X) s, op_ok op -> Inv s -> Inv (fst (exec_op op s))) ->
  task_safe t -> Inv s -> Inv (fst (step_task t s)).
Proof.
  intros Hop Ht Hs. destruct t as [[r|X op k] c|r]; cbn [step_task fst]; auto.
  apply safe_Await_inv in Ht as [Ho _].
  specialize (Hop X op s Ho Hs).
  destruct (exec_op op s) as [s' [e|x]]; exact Hop.
Qed.

Lemma run_schedule_safe_invariant (Inv : Store -> Prop) :
  (forall X (op : Op X) s, op_ok op -> Inv s -> Inv (fst (exec_op op s))) ->
  forall schedule st,
    Forall task_safe (snd st) -> Inv (fst st) ->
    Inv (fst (run_schedule schedule st)).
Proof.
  intros Hop schedule.
  induction schedule as [|i schedule IH]; intros st Hp Hs; [exact Hs|].
  cbn. unfold step_pool.
  destruct (nth_error (snd st) i) as [t|] eqn:E; [|now apply IH].
  assert (Ht : task_safe t).
  { rewrite Forall_forall in Hp. apply Hp. eapply nth_error_In; eauto. }
  pose proof (step_task_safe t (fst st) Ht) as H1.
  pose proof (step_task_safe_invariant Inv t (fst st) Hop Ht Hs) as H2.
  destruct (step_task t (fst st)) as [s' t']. cbn [fst snd] in *.
  apply IH; cbn [fst snd]; [|exact H2].
  now apply set_nth_Forall.
Qed.

(** X19. However requests are interleaved, a stored donation that is
    claimed stays claimed: the race of two claims may overwrite the
    receiver stamp, but no request makes the donation available again. *)
Theorem claimed_stays_claimed (s : Store) (id : ObjectId) (d : Donation)
  (reqs : list (Env * Request)) (schedule : list nat) :
  findDonationById id s = Some d ->
  status d = "claimed" ->
  exists d',
    findDonationById id
      (fst (run_schedule schedule
              (s, map (fun er => start (app (fst er) (snd er))) reqs))) =
      Some d' /\
    status d' = "claimed".
Proof.
  intros Hf Hs.
  apply (run_schedule_safe_invariant (claimed_at id)).
  - intros X op a. apply exec_op_claimed_at.
  - cbn [snd]. apply Forall_forall. intros t Ht.
    apply in_map_iff in Ht as (er & <- & _). apply app_safe.
  - exists d. auto.
Qed.

End Interleaved_frame.

Section Malformed_id.

Context {P : Primitives}.

(** X20. A claim whose [:id] is not the text of an object id is answered
    500 "Server error claiming donation" by the handler's [catch], not
    404, once the caller is a stored receiver: [findById] throws on the
    cast.  The store is left as it was. *)
Theorem claimDonation_malformed_id (s : Store) (userId : ObjectId)
  (id : string) (user : User) :
  findUserById userId s = Some user ->
  user_userType user = "receiver" ->
  castObjectId id = None ->
  exec (claimDonation userId id) s =
    (s, server_error "Server error claiming donation" CastError).
Proof.
  intros Hu Ht Hc. rewrite exec_claimDonation, Hu, Hc.
  apply String.eqb_eq in Ht. now rewrite Ht.
Qed.

End Malformed_id.

(** ** The theorems at concrete inputs *)

(** The claim of the bread by receiver 2 on the demo store. *)
Lemma claimDonation_spec_witness :
  exists s' d',
    @exec demo_primitives (claimDonation 2 bread) demo_store =
      (s', mkResponse 200
             (JObj [("message", JStr "Donation claimed successfully");
                    ("donation", JDonation d')])) /\
    findDonationById 10%N s' = Some d' /\
    status d' = "claimed" /\
    receiverId d' = Some 2%N /\
    receiverName d' = Some "R" /\
    receiverPhone d' = Some "222".
Proof.
  refine (proj2 (proj2 (proj2 (proj2
    (@claimDonation_spec demo_primitives demo_store 2%N bread)))) _ 10%N _
    eq_refl eq_refl eq_refl eq_refl eq_refl eq_refl).
Defined.

(** C1 as stated fails: donor 1 of the demo store claims a donation that
    does not exist and is answered 403, not 404: the role is checked
    before the donation is looked up. *)
Lemma claimDonation_role_before_donation :
  ~ (forall s userId id oid,
       @castObjectId demo_primitives id = Some oid ->
       findDonationById oid s = None ->
       res_status (snd (@exec demo_primitives (claimDonation userId id) s)) =
       404%Z).
Proof.
  intros H.
  specialize (H demo_store 1%N (id_text 99) 99%N eq_refl eq_refl).
  vm_compute in H. discriminate H.
Qed.

#[local] Existing Instance demo_primitives.

Arguments findUserById id%_N s.
Arguments findDonationById id%_N s.
Arguments createDonation env userId%_N body.
Arguments mkUser user_id%_N user_name user_email user_password user_phone
  user_userType user_address user_createdAt%_Z.

(** After the claim by receiver 2 and a login, the claim of the same
    bread by receiver 3 is refused and changes nothing. *)
Lemma claim_at_most_once_witness :
  let s2 := @serve_all demo_primitives claimed_store
              [(demo_env 3000 12, POST_login receiver2_body)] in
  @exec demo_primitives (claimDonation 3 bread) s2 =
    (s2, message 400 "This donation is no longer available").
Proof.
  intros s2.
  destruct (@claim_at_most_once demo_primitives demo_store claimed_store
              2%N bread claimed_response
              [(demo_env 3000 12, POST_login receiver2_body)]
              eq_refl eq_refl)
    as (user1 & oid & d & _ & Hc & _ & _ & _ & _ & _ & H).
  destruct (H 3%N bread Hc) as (_ & _ & H3).
  exact (H3 (mkUser 3 "R2" "r2@x.com" "pw-r2$salt" "333" "receiver"
                    "3 Main St" 1002) eq_refl eq_refl).
Defined.

(** C3. On the demo store, receivers 2 and 3 claim the bread at the same
    time and both read it before either saves: both are answered 200, the
    first with the donation stamped with receiver 2, while the store keeps
    the stamp of receiver 3 only.  The handler's test of the status and
    its [save] are two steps, not one conditional update. *)
Theorem claim_race_both_succeed :
  exists s' resp1 resp2 d1 d',
    @run_schedule demo_primitives race_schedule
      (demo_store, [start (claimDonation 2 bread); start (claimDonation 3 bread)]) =
      (s', [Finished resp1; Finished resp2]) /\
    res_status resp1 = 200%Z /\
    res_status resp2 = 200%Z /\
    get "donation" (res_body resp1) = Some (JDonation d1) /\
    receiverId d1 = Some 2%N /\
    findDonationById 10 s' = Some d' /\
    receiverId d' = Some 3%N /\
    receiverName d' = Some "R2".
Proof.
  do 5 eexists. vm_compute. repeat split.
Qed.

(** C4 as stated fails: receiver 2 of the demo store sends an empty body
    and is answered 400, not 403. *)
Lemma createDonation_receiver_not_always_forbidden :
  ~ (forall s env userId body user,
       findUserById userId s = Some user ->
       user_userType user = "receiver" ->
       res_status (snd (@exec demo_primitives
                          (createDonation env userId body) s)) = 403%Z).
Proof.
  intros H.
  specialize (H demo_store (demo_env 2000 11) 2%N []
                (mkUser 2 "R" "r@x.com" "pw-r$salt" "222" "receiver"
                        "2 Main St" 1001) eq_refl eq_refl).
  vm_compute in H. discriminate H.
Qed.

(** Receiver 2 with the complete body of the bread is answered 403. *)
Lemma createDonation_validation_first_witness :
  @exec demo_primitives (createDonation (demo_env 2000 11) 2 bread_body)
        demo_store =
    (demo_store, message 403 "Only donors can create donations").
Proof.
  exact (proj2 (proj2 (proj2
    (@createDonation_validation_first demo_primitives demo_store
       (demo_env 2000 11) 2%N bread_body)))
    (mkUser 2 "R" "r@x.com" "pw-r$salt" "222" "receiver" "2 Main St" 1001)
    eq_refl eq_refl).
Defined.

(** The claim of the bread by receiver 2 replaces the one donation of the
    demo store and leaves its users as they are. *)
Lemma claim_frame_witness :
  users claimed_store = users demo_store /\
  exists user l1 d l2,
    findUserById 2 demo_store = Some user /\
    castObjectId bread = Some (donation_id d) /\
    donations demo_store = l1 ++ d :: l2 /\
    donations claimed_store =
      l1 ++ mkDonation (donation_id d) (donorId d) (donorName d)
              (donorPhone d) (foodName d) (quantity d) (category d)
              (description d) (pickupAddress d) (expiryTime d)
              "claimed" (Some 2%N) (Some (user_name user))
              (Some (user_phone user)) (createdAt d) :: l2.
Proof.
  exact (proj2 (@claim_frame demo_primitives) demo_store claimed_store
           2%N bread claimed_response eq_refl eq_refl).
Defined.

(** C8. On the demo store a login whose password is the number 12345
    is answered 400 "Invalid email or password" when no user has the
    email, and 500 "Server error during login" when the donor has it:
    [bcrypt.compare] throws on a password that is not a string, and only
    a known email reaches it.  The two failures can be told apart. *)
Theorem login_number_password_leaks :
  @exec demo_primitives (login (demo_env 2000 11) number_login_unknown)
        demo_store =
    (demo_store, message 400 "Invalid email or password") /\
  @exec demo_primitives (login (demo_env 2000 11) number_login_known)
        demo_store =
    (demo_store, server_error "Server error during login" IllegalArguments) /\
  res_status
    (snd (@exec demo_primitives (login (demo_env 2000 11) number_login_unknown)
            demo_store)) <>
  res_status
    (snd (@exec demo_primitives (login (demo_env 2000 11) number_login_known)
            demo_store)).
Proof.
  split; [|split].
  - exact (@login_non_string_password demo_primitives demo_store
             (demo_env 2000 11) number_login_unknown eq_refl eq_refl eq_refl).
  - exact (@login_non_string_password demo_primitives demo_store
             (demo_env 2000 11) number_login_known eq_refl eq_refl eq_refl).
  - vm_compute. discriminate.
Qed.

(** An unknown email and a wrong password for the donor get the same
    response on the demo store. *)
Lemma login_failure_indistinguishable_witness :
  snd (@exec demo_primitives (login (demo_env 2000 11) unknown_login)
         demo_store) =
  snd (@exec demo_primitives (login (demo_env 2001 12) wrong_password_login)
         demo_store).
Proof.
  exact (proj2 (proj2
    (@login_failure_indistinguishable demo_primitives demo_store demo_store
       (demo_env 2000 11) (demo_env 2001 12) unknown_login
       wrong_password_login
       (mkUser 1 "D" "d@x.com" "pw-d$salt" "111" "donor" "1 Main St" 1000)
       eq_refl eq_refl eq_refl eq_refl eq_refl eq_refl eq_refl eq_refl))).
Defined.

(** The login of the donor on the demo store returns the six properties. *)
Lemma responses_hide_password_witness :
  option_map keys (get "user" (res_body donor_login_response)) =
    Some ["id"; "name"; "email"; "userType"; "phone"; "address"].
Proof.
  destruct (proj2 (@responses_hide_password demo_primitives) demo_store
              (demo_env 2000 11) donor_login demo_store donor_login_response
              eq_refl eq_refl)
    as (user & _ & _ & _ & H).
  exact H.
Defined.

(** With the demo instance the token of user 2 is accepted after the word
    "Token" as well. *)
Lemma verifyToken_ignores_scheme_witness :
  @verifyToken demo_primitives
    (Some ("Token" ++ " " ++ String (ascii_of_N 2) EmptyString)%string)
    (demo_env 2000 11) = inr 2%N.
Proof.
  apply (proj1 (@verifyToken_ignores_scheme demo_primitives (demo_env 2000 11))
           "Token" (String (ascii_of_N 2) EmptyString) 2%N).
  - reflexivity.
  - reflexivity.
  - discriminate.
  - reflexivity.
Defined.

(** ** The further properties at concrete inputs *)

Arguments serve {P} s er.
Arguments claimedDonations userId%_N.
Arguments myDonations userId%_N.

(** Donor 1 tries to claim the bread: 403, and the demo store is as it
    was. *)
Lemma failure_changes_nothing_witness :
  fst (serve demo_store (demo_env 2000 11, PUT_claim (bearer 1) bread)) =
  demo_store.
Proof.
  apply (@failure_changes_nothing demo_primitives).
  vm_compute. discriminate.
Defined.

(** Statistics, a login and a listing in a row. *)
Lemma reads_change_nothing_witness :
  serve_all demo_store
    [(demo_env 2000 11, GET_stats);
     (demo_env 2001 12, POST_login donor_login);
     (demo_env 2002 13, GET_donations)] = demo_store.
Proof.
  apply (@reads_change_nothing demo_primitives).
  repeat constructor.
Defined.

(** The list of claims asked without a header. *)
Lemma protected_routes_reject_witness :
  serve demo_store (demo_env 2000 11, GET_claimed None) =
  (demo_store, message 401 "No token provided").
Proof.
  exact (proj1 (@protected_routes_reject demo_primitives demo_store
                  (demo_env 2000 11) None (GET_claimed None) eq_refl)
           eq_refl).
Defined.

(** The token of receiver 2 after the word "Token" and before more. *)
Lemma protected_routes_accept_witness :
  serve demo_store
    (demo_env 2000 11,
     GET_claimed (Some ("Token" ++ " " ++ String (ascii_of_N 2) EmptyString
                          ++ " " ++ "more")%string)) =
  exec (claimedDonations 2) demo_store.
Proof.
  refine (proj2 (@protected_routes_accept demo_primitives demo_store
                   (demo_env 2000 11) "Token"
                   (String (ascii_of_N 2) EmptyString) 2%N
                   (GET_claimed _) eq_refl eq_refl _ eq_refl) "more" eq_refl).
  discriminate.
Defined.

(** A newcomer registers on the demo store. *)
Lemma register_spec_witness :
  findUserByEmail "n@x.com"
    (mkStore (users demo_store ++ [newcomer]) (donations demo_store)) =
  Some newcomer.
Proof.
  refine (proj1 (proj2 (proj2 (proj2 (proj2 (proj2
    (@register_spec demo_primitives demo_store (demo_env 4000 20)
       newcomer_body)))) eq_refl eq_refl eq_refl (or_introl eq_refl) _
    eq_refl))).
  discriminate.
Defined.

(** The donor registers on the empty store and logs in after two other
    registrations. *)
Lemma register_then_login_witness :
  res_status
    (snd (exec (login (demo_env 5000 30) donor_login)
            (serve_all donor_store
               [(demo_env 1001 2, POST_register receiver_body);
                (demo_env 1002 3, POST_register receiver2_body)]))) = 200%Z.
Proof.
  rewrite (@register_then_login demo_primitives empty_store donor_store
             (demo_env 1000 1) (demo_env 5000 30) donor_body donor_login
             donor_registered
             [(demo_env 1001 2, POST_register receiver_body);
              (demo_env 1002 3, POST_register receiver2_body)]
             eq_refl eq_refl eq_refl eq_refl eq_refl).
  reflexivity.
Defined.

(** Donor 1 gives bread a second time. *)
Lemma createDonation_success_witness :
  exists d,
    findDonationById 11
      (mkStore (users demo_store) (donations demo_store ++ [d])) = Some d /\
    status d = "available" /\ donorName d = "D".
Proof.
  destruct (@createDonation_success demo_primitives demo_store
              (demo_env 2000 11) 1%N bread_body
              (mkUser 1 "D" "d@x.com" "pw-d$salt" "111" "donor" "1 Main St" 1000)
              eq_refl eq_refl eq_refl eq_refl eq_refl eq_refl eq_refl
              ltac:(discriminate) ltac:(discriminate) eq_refl)
    as (_ & H & _).
  eexists. split; [exact H|]. split; reflexivity.
Defined.

(** Donor 1 lists its donations on the demo store. *)
Lemma myDonations_spec_witness :
  exists l,
    exec (myDonations 1) demo_store =
      (demo_store, mkResponse 200 (JArr (map JDonation l))) /\
    forall d, In d l <-> In d (donations demo_store) /\ donorId d = 1%N.
Proof.
  destruct (proj2 (proj2 (@myDonations_spec demo_primitives demo_store 1%N))
              (mkUser 1 "D" "d@x.com" "pw-d$salt" "111" "donor" "1 Main St" 1000)
              eq_refl eq_refl)
    as (l & H1 & _ & _ & H2).
  exists l. split; assumption.
Defined.

(** Receiver 2 lists its claims after claiming the bread. *)
Lemma claimedDonations_spec_witness :
  exists l,
    exec (claimedDonations 2) claimed_store =
      (claimed_store, mkResponse 200 (JArr (map JDonation l))) /\
    forall d, In d l <-> In d (donations claimed_store) /\ receiverId d = Some 2%N.
Proof.
  destruct (proj2 (proj2 (@claimedDonations_spec demo_primitives claimed_store 2%N))
              (mkUser 2 "R" "r@x.com" "pw-r$salt" "222" "receiver" "2 Main St" 1001)
              eq_refl eq_refl)
    as (l & H1 & _ & _ & H2).
  exists l. split; assumption.
Defined.

(** The bread after the claim of receiver 2. *)
Lemma claim_then_lists_witness :
  exists available,
    exec listAvailable claimed_store =
      (claimed_store, mkResponse 200 (JArr (map JDonation available))) /\
    forall x, In x available -> castObjectId bread <> Some (donation_id x).
Proof.
  assert (Hnd : NoDup (map donation_id (donations demo_store))).
  { repeat constructor. intros []. }
  destruct (@claim_then_lists demo_primitives demo_store claimed_store
              2%N bread claimed_response eq_refl eq_refl Hnd)
    as (d' & mine & available & _ & _ & _ & H1 & H2).
  exists available. split; assumption.
Defined.

(** The donor registers twice on the empty store. *)
Lemma register_twice_witness :
  exec (register (demo_env 1001 2) donor_body) donor_store =
    (donor_store, message 400 "User already exists with this email").
Proof.
  exact (@register_twice demo_primitives empty_store donor_store
           (demo_env 1000 1) (demo_env 1001 2) donor_body donor_body
           donor_registered
           [] eq_refl eq_refl eq_refl eq_refl eq_refl eq_refl eq_refl eq_refl).
Defined.

(** Two newcomers with one email on the demo store. *)
Lemma register_race_witness :
  fst (run_schedule alternate_schedule
         (demo_store,
          [start (register (demo_env 4000 20) newcomer_body);
           start (register (demo_env 4001 21) newcomer2_body)])) =
  mkStore (users demo_store ++ [newcomer]) (donations demo_store).
Proof.
  rewrite (@register_race demo_primitives demo_store (demo_env 4000 20)
             (demo_env 4001 21) newcomer_body newcomer2_body
             newcomer newcomer2
             eq_refl eq_refl eq_refl eq_refl eq_refl eq_refl eq_refl
             eq_refl eq_refl eq_refl eq_refl).
  reflexivity.
Defined.

(** Receiver 3 claims the bread that receiver 2 has claimed. *)
Lemma claimed_stays_claimed_witness :
  exists d',
    findDonationById 10
      (fst (run_schedule [0; 0; 0; 0]%nat
              (claimed_store,
               map (fun er => start (app (fst er) (snd er)))
                   [(demo_env 6000 40, PUT_claim (bearer 3) bread)]))) = Some d' /\
    status d' = "claimed".
Proof.
  destruct (donations claimed_store) as [|d l] eqn:E; [discriminate E|].
  exact (@claimed_stays_claimed demo_primitives claimed_store 10%N d
           [(demo_env 6000 40, PUT_claim (bearer 3) bread)] [0; 0; 0; 0]%nat
           ltac:(unfold findDonationById; rewrite E;
                 injection E as <- _; reflexivity)
           ltac:(injection E as <- _; reflexivity)).
Defined.

(** Receiver 2 claims "xyz" on the demo store. *)
Lemma claimDonation_malformed_id_witness :
  exec (claimDonation 2 "xyz") demo_store =
    (demo_store, server_error "Server error claiming donation" CastError).
Proof.
  exact (@claimDonation_malformed_id demo_primitives demo_store 2%N "xyz"
           (mkUser 2 "R" "r@x.com" "pw-r$salt" "222" "receiver" "2 Main St" 1001)
           eq_refl eq_refl eq_refl).
Defined.
